(** * Agent adapters, plugin discovery and session handling

    A shallow embedding of the Python sources of the repository:
    the seven backend adapters ([crewai_agent.py], [google_adk_agent.py],
    [langgraph_agent.py], [llama_index_agent.py], [openai_agents_sdk_agent.py],
    [openai_responses_agent.py], [smolagents_agent.py]) and the Streamlit host
    script [agent-ui.py].

    Conventions of the embedding.
    - A Python [str] is a [string]; each character stands for the code point
      of the same number (U+0000 .. U+00FF).
    - A Python [int] is a [Z].
    - Code that can raise runs in the monad [py]: a state transformer whose
      result is either [Returns v] or [Raises e].  The state is kept when an
      exception is raised, as Python keeps every mutation made before a
      [raise].  The type [exn] stands for instances of Python's [Exception];
      a [try: ... except Exception] block is [try_except].
    - [print] appends one line to the standard output kept in the state.
    - Calls into a vendor SDK (the language-model frameworks, the Tavily
      search client, [json.loads]) are variables of the enclosing section:
      functions from the arguments the source passes (and the SDK's own
      stored conversation) to an outcome. *)

From Stdlib Require Import ZArith String Ascii List Bool Lia DecimalString.
From stdpp Require Import base option list gmap strings.
Import ListNotations.
Open Scope string_scope.
Open Scope list_scope.
Open Scope Z_scope.

(** ** Exceptions and the effect monad *)

(** The classes the sources tell apart; each stands for the class and its
    subclasses, [OtherException] for any other subclass of [Exception]. *)
Inductive exn_class : Type :=
  | RuntimeError
  | ValueError
  | IndexError
  | AttributeError
  | JSONDecodeError
  | AlreadyExistsError
  | OtherException.

(** An exception object: its class and the text [str(e)] gives. *)
Record exn : Type := Exn { exn_cls : exn_class; exn_str : string }.

Inductive outcome (A : Type) : Type :=
  | Returns (a : A)
  | Raises (e : exn).
Arguments Returns {A} a.
Arguments Raises {A} e.

(** The process state a method runs in: the object ([self]) and the lines
    printed so far. *)
Record run_state (Self : Type) : Type :=
  RunState { self : Self; stdout : list string }.
Arguments RunState {Self} self stdout.
Arguments self {Self} r.
Arguments stdout {Self} r.

Definition py (Self A : Type) : Type :=
  run_state Self -> outcome A * run_state Self.

Definition ret {Self A} (a : A) : py Self A := fun s => (Returns a, s).

Definition raise {Self A} (e : exn) : py Self A := fun s => (Raises e, s).

Definition bind {Self A B} (c : py Self A) (k : A -> py Self B) : py Self B :=
  fun s =>
    match c s with
    | (Returns a, s') => k a s'
    | (Raises e, s') => (Raises e, s')
    end.

Notation "'let!' x ':=' c 'in' k" := (bind c (fun x => k))
  (at level 10, x pattern, c at level 100, k at level 200).

(** [try: body  except Exception as e: handler e]. *)
Definition try_except {Self A} (body : py Self A) (handler : exn -> py Self A)
  : py Self A :=
  fun s =>
    match body s with
    | (Returns a, s') => (Returns a, s')
    | (Raises e, s') => handler e s'
    end.

(** [try: body  except C as e: handler e] for one exception class [C]:
    exceptions of other classes pass through. *)
Definition exn_class_eqb (a b : exn_class) : bool :=
  match a, b with
  | RuntimeError, RuntimeError | ValueError, ValueError
  | IndexError, IndexError | AttributeError, AttributeError
  | JSONDecodeError, JSONDecodeError
  | AlreadyExistsError, AlreadyExistsError
  | OtherException, OtherException => true
  | _, _ => false
  end.

Definition try_except_class {Self A} (cls : exn_class) (body : py Self A)
  (handler : exn -> py Self A) : py Self A :=
  fun s =>
    match body s with
    | (Returns a, s') => (Returns a, s')
    | (Raises e, s') =>
        if exn_class_eqb (exn_cls e) cls then handler e s' else (Raises e, s')
    end.

Definition get_self {Self} : py Self Self := fun s => (Returns (self s), s).

Definition set_self {Self} (x : Self) : py Self unit :=
  fun s => (Returns tt, RunState x (stdout s)).

Definition print {Self} (line : string) : py Self unit :=
  fun s => (Returns tt, RunState (self s) (stdout s ++ [line])).

(** A call into an SDK whose outcome is already known. *)
Definition call {Self A} (o : outcome A) : py Self A := fun s => (o, s).

(** ** The tool library

    Every adapter file defines the same two static methods, [date_tool] and
    [web_search]; they are embedded once. *)

Record date : Type := Date { year : Z; month : Z; day : Z }.

(** The dates a host clock gives: a year of four digits (a [datetime.date]
    holds years up to 9999, and [date.today()] is not before 1970), a month
    1 .. 12 and a day 1 .. 31 (the day further bounded by the month, which no
    directive used here depends on). *)
Definition date_in_range (d : date) : Prop :=
  1000 <= year d <= 9999 /\ 1 <= month d <= 12 /\ 1 <= day d <= 31.

Definition month_names : list string :=
  ["January"; "February"; "March"; "April"; "May"; "June"; "July";
   "August"; "September"; "October"; "November"; "December"].

Definition digit_char (n : Z) : ascii :=
  ascii_of_nat (48 + Z.to_nat (n mod 10)).

(** [%B]: the full month name. *)
Definition directive_B (d : date) : string :=
  nth (Z.to_nat (month d - 1)) month_names "".

(** [%d]: the day of the month as two digits, zero-padded. *)
Definition directive_d (d : date) : string :=
  String (digit_char (day d / 10)) (String (digit_char (day d)) "").

(** [%Y]: the year with century, four digits as Python documents it
    (0001 .. 9999). *)
Definition directive_Y (d : date) : string :=
  String (digit_char (year d / 1000))
    (String (digit_char (year d / 100))
       (String (digit_char (year d / 10))
          (String (digit_char (year d)) ""))).

(** [date.strftime(fmt)] for the directives the sources use; any other
    character of the format is copied. *)
Fixpoint strftime (fmt : string) (d : date) : string :=
  match fmt with
  | "" => ""
  | String "%" (String "B" rest) => directive_B d +:+ strftime rest d
  | String "%" (String "d" rest) => directive_d d +:+ strftime rest d
  | String "%" (String "Y" rest) => directive_Y d +:+ strftime rest d
  | String c rest => String c (strftime rest d)
  end.

(** [date_tool()]: [today = date.today(); return today.strftime("%B %d, %Y")].
    [today] is what the host clock gives at the call. *)
Definition date_tool (today : date) : string :=
  strftime "%B %d, %Y" today.

(** ** JSON values and [json.dumps]

    The values the search provider and the tool-call arguments carry.  A
    float is kept as the text Python's [repr] gives for it. *)

#[local] Set Warnings "-register-all".

Inductive json : Type :=
  | JNull
  | JBool (b : bool)
  | JInt (z : Z)
  | JFloat (repr : string)
  | JStr (s : string)
  | JList (items : list json)
  | JDict (entries : list (string * json)).

Definition hex_digit (n : N) : ascii :=
  if (n <? 10)%N then ascii_of_N (48 + n) else ascii_of_N (87 + n).

(** One character under [json.encoder.py_encode_basestring_ascii]: the
    short escapes, printable ASCII unchanged, anything else as [\uXXXX]
    with lower-case hexadecimal digits. *)
Definition escape_char (c : ascii) : string :=
  let n := N_of_ascii c in
  if (n =? 34)%N then String "\" (String "034" "")
  else if (n =? 92)%N then String "\" (String "\" "")
  else if (n =? 10)%N then String "\" (String "n" "")
  else if (n =? 13)%N then String "\" (String "r" "")
  else if (n =? 9)%N then String "\" (String "t" "")
  else if (n =? 8)%N then String "\" (String "b" "")
  else if (n =? 12)%N then String "\" (String "f" "")
  else if ((32 <=? n) && (n <=? 126))%N then String c ""
  else String "\" (String "u" (String "0" (String "0"
         (String (hex_digit (n / 16)) (String (hex_digit (n mod 16)) ""))))).

Fixpoint escape_chars (s : string) : string :=
  match s with
  | "" => ""
  | String c rest => escape_char c +:+ escape_chars rest
  end.

Definition quote : string := String "034" "".

Definition encode_basestring_ascii (s : string) : string :=
  quote +:+ escape_chars s +:+ quote.

(** [json.dumps(v)] with the defaults the sources use: [ensure_ascii=True],
    item separator [", "], key separator [": "], no indentation. *)
Fixpoint json_dumps (v : json) : string :=
  match v with
  | JNull => "null"
  | JBool true => "true"
  | JBool false => "false"
  | JInt z => NilZero.string_of_int (Z.to_int z)
  | JFloat r => r
  | JStr s => encode_basestring_ascii s
  | JList items => "[" +:+ String.concat ", " (map json_dumps items) +:+ "]"
  | JDict entries =>
      "{" +:+ String.concat ", "
                (map (fun kv => encode_basestring_ascii (fst kv) +:+ ": "
                                +:+ json_dumps (snd kv)) entries) +:+ "}"
  end.

(** [d.get(key, default)] on a dict. *)
Fixpoint dict_get (d : list (string * json)) (key : string) (default : json)
  : json :=
  match d with
  | [] => default
  | (k, v) :: rest => if String.eqb k key then v else dict_get rest key default
  end.

Section Tools.

(** [tavily_client.search(query)]: the provider's response dict, or an
    exception. *)
Variable tavily_search : json -> outcome (list (string * json)).

(** [str(v)] for a value that is not a [str] (used by the f-string of
    [web_search] when a tool call passes such a query). *)
Variable py_str_other : json -> string.

Definition py_str (v : json) : string :=
  match v with
  | JStr s => s
  | _ => py_str_other v
  end.

(** [web_search(query)]:
    [search_response = tavily_client.search(query)],
    [results = json.dumps(search_response.get('results', []))],
    two [print]s, [return results]. *)
Definition web_search {Self} (query : json) : py Self string :=
  let! search_response := call (tavily_search query) in
  let results := json_dumps (dict_get search_response "results" (JList [])) in
  let! _ := print ("Web Search Results for '" +:+ py_str query +:+ "':") in
  let! _ := print results in
  ret results.

End Tools.

(** ** Shared data of the adapters *)

(** A conversation entry, [{"role": r, "content": c}]. *)
Record turn : Type := Turn { role : string; content : string }.

(** Python's truth value of a [str]. *)
Definition str_truthy (s : string) : bool := negb (String.eqb s "").

(** [needle in hay] for two strings. *)
Fixpoint str_contains (needle hay : string) : bool :=
  String.prefix needle hay
  || match hay with
     | "" => false
     | String _ rest => str_contains needle rest
     end.

(** What iterating a generator of the SDK gives: the items it yields and,
    when it stops by raising, the exception. *)
Record stream (E : Type) : Type :=
  Stream { yielded : list E; stops_with : option exn }.
Arguments Stream {E} yielded stops_with.
Arguments yielded {E} s.
Arguments stops_with {E} s.

(** ** crewai_agent.py *)

Module CrewAI.

(** The attributes of [self] that change or are read back; [_tools] and
    [_agent] are fixed at construction. *)
Record state : Type := State { name : string; _messages : list turn }.

Definition chat_failed : string := "System Error: Unable to process request.".

Section Adapter.

(** [Task(...)], [Crew(...)] and
    [crew.kickoff(inputs={"query": message, "history": self._messages})]:
    the text [str(response)], or the exception one of them raises. *)
Variable crew_kickoff : string -> list turn -> outcome string.

Definition init : state := State "CrewAI Agent" [].

Definition chat (message : string) : py state string :=
  try_except
    (let! me := get_self in
     let! response := call (crew_kickoff message (_messages me)) in
     let! _ := set_self
                 (State (name me)
                    (_messages me ++ [Turn "user" message;
                                      Turn "assistant" response])) in
     ret response)
    (fun e =>
       let! _ := print ("Error in chat: " +:+ exn_str e) in
       ret chat_failed).

Definition clear_chat : py state bool :=
  try_except
    (let! me := get_self in
     let! _ := set_self (State (name me) []) in
     ret true)
    (fun e =>
       let! _ := print ("Error clearing chat: " +:+ exn_str e) in
       ret false).

End Adapter.

End CrewAI.

(** ** openai_agents_sdk_agent.py *)

Module OpenAIAgentsSDK.

Record state : Type :=
  State { name : string; model : string; conversation_history : list turn }.

Definition chat_failed : string :=
  "Sorry, I encountered an error processing your request.".

Section Adapter.

(** [self.runner.run_sync(starting_agent=self.sdk_agent, input=history)]:
    the text [str(result.final_output)], or an exception. *)
Variable run_sync : list turn -> outcome string.

Definition init : state := State "OpenAI Agents SDK Agent" "gpt-4o-mini" [].

Definition append_history (t : turn) : py state unit :=
  let! me := get_self in
  set_self (State (name me) (model me) (conversation_history me ++ [t])).

Definition chat (message : string) : py state string :=
  try_except
    (let! _ := append_history (Turn "user" message) in
     let! me := get_self in
     let! response_text := call (run_sync (conversation_history me)) in
     let! _ := append_history (Turn "assistant" response_text) in
     ret response_text)
    (fun e =>
       let! _ := print ("Error in chat: " +:+ exn_str e) in
       ret chat_failed).

Definition clear_chat : py state bool :=
  try_except
    (let! me := get_self in
     let! _ := set_self (State (name me) (model me) []) in
     ret true)
    (fun e =>
       let! _ := print ("Error clearing chat: " +:+ exn_str e) in
       ret false).

End Adapter.

End OpenAIAgentsSDK.

(** ** openai_responses_agent.py *)

Module OpenAIResponses.

Record state : Type :=
  State { name : string; model : string;
          previous_response_id : option string }.

(** An entry of the [input] list of a request: the user's message
    [{"role": "user", "content": c}] or a tool result
    [{"type": "function_call_output", "call_id": i, "output": o}]. *)
Inductive input_item : Type :=
  | UserMessage (content : string)
  | FunctionCallOutput (call_id output : string).

(** An entry of [response.output]; [oi_type] is [None] when the item has no
    [type] attribute, [oi_arguments] is [""] when the arguments are falsy. *)
Record output_item : Type :=
  OutputItem { oi_type : option string; oi_name : string;
               oi_arguments : string; oi_call_id : string }.

Record response : Type :=
  Response { id : string; output : list output_item;
             output_text : option string }.

(** What [client.responses.create] is called with beyond the fixed model,
    instructions and tool definitions. *)
Record request : Type :=
  Request { input : list input_item; with_previous : option string }.

Definition chat_failed : string :=
  "Sorry, I encountered an error processing your request.".

Definition is_function_call (item : output_item) : bool :=
  match oi_type item with
  | Some t => String.eqb t "function_call"
  | None => false
  end.

(** [if self.previous_response_id:] *)
Definition id_truthy (i : option string) : bool :=
  match i with
  | Some s => str_truthy s
  | None => false
  end.

(** [getattr(response, 'output_text', '')] *)
Definition text_of (r : response) : string := default "" (output_text r).

Section Adapter.

Variable tavily_search : json -> outcome (list (string * json)).
Variable py_str_other : json -> string.
(** The host clock's date during the turn. *)
Variable today : date.
(** [json.loads]: [None] stands for [json.JSONDecodeError]. *)
Variable json_loads : string -> option json.
(** [self.client.responses.create(...)] *)
Variable responses_create : request -> outcome response.

Definition init : state :=
  State "OpenAI Responses API Agent" "gpt-4o-mini" None.

Definition _call_tool (tool_name : string) (tool_input : json)
  : py state string :=
  if String.eqb tool_name "date" then ret (date_tool today)
  else if String.eqb tool_name "web_search" then
    match tool_input with
    | JDict d =>
        web_search tavily_search py_str_other (dict_get d "query" (JStr ""))
    | _ => raise (Exn AttributeError "object has no attribute 'get'")
    end
  else ret "Unsupported tool.".

(** [json.loads(item.arguments) if item.arguments else {}], with
    [except json.JSONDecodeError: function_args = {}]. *)
Definition function_args (item : output_item) : json :=
  if str_truthy (oi_arguments item) then
    match json_loads (oi_arguments item) with
    | Some v => v
    | None => JDict []
    end
  else JDict [].

(** The second loop of [_process_response]: one tool result per
    function call, in order. *)
Fixpoint run_tool_calls (items : list output_item)
  : py state (list input_item) :=
  match items with
  | [] => ret []
  | item :: rest =>
      if is_function_call item then
        let! result := _call_tool (oi_name item) (function_args item) in
        let! more := run_tool_calls rest in
        ret (FunctionCallOutput (oi_call_id item) result :: more)
      else run_tool_calls rest
  end.

Definition _process_response (r : response) (input_items : list input_item)
  : py state (string * string * list input_item) :=
  if negb (existsb is_function_call (output r)) then
    ret (text_of r, id r, input_items)
  else
    let! tool_results := run_tool_calls (output r) in
    let! follow_up_response :=
      call (responses_create (Request tool_results (Some (id r)))) in
    ret (text_of follow_up_response, id follow_up_response,
         input_items ++ tool_results).

Definition chat (message : string) : py state string :=
  try_except
    (let input_item := UserMessage message in
     let! me := get_self in
     let! r :=
       (if id_truthy (previous_response_id me) then
          call (responses_create
                  (Request [input_item] (previous_response_id me)))
        else
          call (responses_create (Request [input_item] None))) in
     let! (response_text, new_response_id, _) :=
       _process_response r [input_item] in
     let! me := get_self in
     let! _ := set_self (State (name me) (model me) (Some new_response_id)) in
     ret response_text)
    (fun e =>
       let! _ := print ("Error in chat: " +:+ exn_str e) in
       ret chat_failed).

Definition clear_chat : py state bool :=
  try_except
    (let! me := get_self in
     let! _ := set_self (State (name me) (model me) None) in
     ret true)
    (fun e =>
       let! _ := print ("Error clearing chat: " +:+ exn_str e) in
       ret false).

End Adapter.

End OpenAIResponses.

(** ** langgraph_agent.py *)

Module LangGraph.

(** [memory] is the [MemorySaver] the graph was compiled with: what it has
    checkpointed, per thread.  The key is the thread id the source passes
    as [str(self.thread_id)]; a thread without an entry has no checkpoint. *)
Record state : Type :=
  State { name : string; thread_id : Z; memory : gmap Z (list string) }.

(** A streamed state of the graph: [messages] is [None] when the event is
    empty or has no ["messages"] key; a message has [content] or not. *)
Record message : Type := Message { msg_content : option string }.
Record event : Type := Event { messages : option (list message) }.

Definition chat_failed : string :=
  "Sorry, I encountered an error processing your request.".

(** The body of the [for event in ...] loop, from the first event on:
    [event["messages"][-1]] raises on an empty list. *)
Fixpoint collect (events : list event) (full_response : string)
  : outcome string :=
  match events with
  | [] => Returns full_response
  | ev :: rest =>
      match messages ev with
      | Some msgs =>
          match last msgs with
          | Some last_message =>
              collect rest
                (match msg_content last_message with
                 | Some c => c
                 | None => full_response
                 end)
          | None => Raises (Exn IndexError "list index out of range")
          end
      | None => collect rest full_response
      end
  end.

Section Adapter.

(** [self.graph.stream(inputs, config=config, stream_mode="values")] on
    a thread: from the thread's checkpoint and the user's message, the
    events streamed and the checkpoint the saver holds afterwards. *)
Variable graph_stream :
  list string -> string -> stream event * list string.

Definition init : state := State "LangGraph Agent" 1 ∅.

Definition _inc_thread_id : py state Z :=
  let! me := get_self in
  let new_thread_id := thread_id me + 1 in
  let! _ := set_self (State (name me) new_thread_id (memory me)) in
  ret new_thread_id.

Definition chat (msg : string) : py state string :=
  try_except
    (let! me := get_self in
     let checkpoint := default [] (memory me !! thread_id me) in
     let run := graph_stream checkpoint msg in
     let! _ := set_self (State (name me) (thread_id me)
                           (<[thread_id me := snd run]> (memory me))) in
     let! full_response := call (collect (yielded (fst run)) "") in
     let! _ := match stops_with (fst run) with
               | Some e => raise e
               | None => ret tt
               end in
     ret full_response)
    (fun e =>
       let! _ := print ("Error in chat: " +:+ exn_str e) in
       ret chat_failed).

Definition clear_chat : py state bool :=
  try_except
    (let! _ := _inc_thread_id in
     ret true)
    (fun e =>
       let! _ := print ("Error clearing chat: " +:+ exn_str e) in
       ret false).

End Adapter.

End LangGraph.

(** ** smolagents_agent.py *)

Module SmolAgents.

(** [memory] is [self._agent.memory]: the steps the agent has recorded. *)
Record state : Type := State { name : string; memory : list string }.

Section Adapter.

(** [self._agent.run(task=message, reset=False)] on the recorded steps:
    the text [str(response)] or an exception, and the steps recorded
    afterwards. *)
Variable agent_run : list string -> string -> outcome string * list string.

Definition init : state := State "SmolAgents Agent" [].

Definition chat (message : string) : py state string :=
  try_except
    (let! me := get_self in
     let run := agent_run (memory me) message in
     let! _ := set_self (State (name me) (snd run)) in
     let! response := call (fst run) in
     ret response)
    (fun e => ret ("System Error: " +:+ exn_str e)).

(** [self._agent.memory.reset()] empties the recorded steps. *)
Definition clear_chat : py state bool :=
  try_except
    (let! me := get_self in
     let! _ := set_self (State (name me) []) in
     ret true)
    (fun e =>
       let! _ := print ("Error clearing chat: " +:+ exn_str e) in
       ret false).

End Adapter.

End SmolAgents.

(** ** llama_index_agent.py *)

Module LlamaIndex.

(** [memory] is the [ChatMemoryBuffer] passed to every run. *)
Record state : Type := State { name : string; memory : list string }.

Definition chat_failed : string :=
  "Sorry, I encountered an error processing your request.".

Definition nested_loop_message : string :=
  "asyncio.run() cannot be called from a running event loop".

Section Adapter.

(** [asyncio.run(self._chat_async(message))] and
    [asyncio.get_event_loop().run_until_complete(self._chat_async(message))]
    on the memory buffer: the text [str(result)] or an exception, and
    the buffer afterwards. *)
Variable asyncio_run : list string -> string -> outcome string * list string.
Variable loop_run_until_complete :
  list string -> string -> outcome string * list string.

Definition init : state := State "Llama-Index Agent" [].

Definition run_with
  (runner : list string -> string -> outcome string * list string)
  (message : string) : py state string :=
  let! me := get_self in
  let run := runner (memory me) message in
  let! _ := set_self (State (name me) (snd run)) in
  call (fst run).

Definition chat (message : string) : py state string :=
  try_except
    (let! result :=
       try_except_class RuntimeError
         (run_with asyncio_run message)
         (fun e =>
            if str_contains nested_loop_message (exn_str e)
            then run_with loop_run_until_complete message
            else raise e) in
     ret result)
    (fun e =>
       let! _ := print ("Error in chat: " +:+ exn_str e) in
       ret chat_failed).

(** [self.memory.reset()] empties the buffer. *)
Definition clear_chat : py state bool :=
  try_except
    (let! me := get_self in
     let! _ := set_self (State (name me) []) in
     ret true)
    (fun e =>
       let! _ := print ("Error clearing chat: " +:+ exn_str e) in
       ret false).

End Adapter.

End LlamaIndex.

(** ** google_adk_agent.py *)

Module GoogleADK.

(** A session id is a [uuid.uuid4()]; it is represented by the index of
    its draw, so two draws never give the same id.  [uuid_draws] counts
    the draws made so far and [sessions] is the store of the
    [InMemorySessionService]: the events of each session created. *)
Record state : Type :=
  State { name : string; _user_id : string; _session_id : nat;
          sessions : gmap nat (list string); uuid_draws : nat }.

(** An event of the runner: [is_final_response] is [None] when the event
    has no such method, [text] when it has no (or an empty) [text],
    [parts] when it has no [content.parts]; a part's text likewise. *)
Record event : Type :=
  Event { is_final_response : option bool; text : option string;
          parts : option (list (option string)) }.

Definition empty_response : string := "Agent generated an empty response.".

Definition part_text (p : option string) : string :=
  match p with
  | Some t => if str_truthy t then t else ""
  | None => ""
  end.

(** The body of the [async for event in ...] loop of [_run]. *)
Definition on_event (response_text : string) (ev : event) : string :=
  match is_final_response ev with
  | Some true =>
      match text ev with
      | Some t =>
          if str_truthy t then t
          else match parts ev with
               | Some ps => String.concat "" (map part_text ps)
               | None => response_text
               end
      | None =>
          match parts ev with
          | Some ps => String.concat "" (map part_text ps)
          | None => response_text
          end
      end
  | _ => response_text
  end.

Section Adapter.

(** [self._runner.run_async(user_id, session_id, new_message)] on an
    existing session: from the session's events and the user's message,
    the events streamed and the session's events afterwards. *)
Variable run_async : list string -> string -> stream event * list string.

Definition uuid4 : py state nat :=
  let! me := get_self in
  let! _ := set_self (State (name me) (_user_id me) (_session_id me)
                        (sessions me) (S (uuid_draws me))) in
  ret (uuid_draws me).

(** [asyncio.run(self._session_service.create_session(...))] *)
Definition create_session (session_id : nat) : py state unit :=
  let! me := get_self in
  match sessions me !! session_id with
  | Some _ => raise (Exn AlreadyExistsError "Session already exists.")
  | None =>
      set_self (State (name me) (_user_id me) (_session_id me)
                  (<[session_id := []]> (sessions me)) (uuid_draws me))
  end.

(** The state [__init__] leaves in a process that has drawn no uuid yet. *)
Definition init : state :=
  State "Google ADK Agent" "default_user" 0%nat {[ 0%nat := [] ]} 1%nat.

(** [asyncio.run(_run())] *)
Definition _run (message : string) : py state string :=
  let! me := get_self in
  match sessions me !! _session_id me with
  | None => raise (Exn ValueError "Session not found.")
  | Some events =>
      let run := run_async events message in
      let! _ := set_self (State (name me) (_user_id me) (_session_id me)
                            (<[_session_id me := snd run]> (sessions me))
                            (uuid_draws me)) in
      let response_text := fold_left on_event (yielded (fst run)) "" in
      match stops_with (fst run) with
      | Some e => raise e
      | None => ret response_text
      end
  end.

Definition chat (message : string) : py state string :=
  try_except
    (let! result := _run message in
     ret (if str_truthy result then result else empty_response))
    (fun e => ret ("System Error: " +:+ exn_str e)).

Definition clear_chat : py state bool :=
  try_except
    (let! fresh := uuid4 in
     let! me := get_self in
     let! _ := set_self (State (name me) (_user_id me) fresh
                           (sessions me) (uuid_draws me)) in
     let! _ := create_session fresh in
     ret true)
    (fun e =>
       let! _ := print ("Error clearing chat: " +:+ exn_str e) in
       ret false).

End Adapter.

End GoogleADK.

(** ** The adapter contract, and the seven adapters under it *)

Record adapter : Type :=
  Adapter { a_state : Type;
            a_init : a_state;
            a_chat : string -> py a_state string;
            a_clear_chat : py a_state bool }.

Inductive backend : Type :=
  | Crewai
  | GoogleAdk
  | Langgraph
  | Llamaindex
  | OpenaiAgentsSdk
  | OpenaiResponses
  | Smolagents.

(** Everything outside the repository that the adapters call. *)
Record providers : Type :=
  Providers {
    crew_kickoff : string -> list turn -> outcome string;
    run_async : list string -> string -> stream GoogleADK.event * list string;
    graph_stream : list string -> string -> stream LangGraph.event * list string;
    asyncio_run : list string -> string -> outcome string * list string;
    loop_run_until_complete :
      list string -> string -> outcome string * list string;
    run_sync : list turn -> outcome string;
    tavily_search : json -> outcome (list (string * json));
    py_str_other : json -> string;
    today : date;
    json_loads : string -> option json;
    responses_create :
      OpenAIResponses.request -> outcome OpenAIResponses.response;
    agent_run : list string -> string -> outcome string * list string }.

Definition adapter_of (P : providers) (b : backend) : adapter :=
  match b with
  | Crewai =>
      Adapter CrewAI.state CrewAI.init
        (CrewAI.chat (crew_kickoff P)) CrewAI.clear_chat
  | GoogleAdk =>
      Adapter GoogleADK.state GoogleADK.init
        (GoogleADK.chat (run_async P)) GoogleADK.clear_chat
  | Langgraph =>
      Adapter LangGraph.state LangGraph.init
        (LangGraph.chat (graph_stream P)) LangGraph.clear_chat
  | Llamaindex =>
      Adapter LlamaIndex.state LlamaIndex.init
        (LlamaIndex.chat (asyncio_run P) (loop_run_until_complete P))
        LlamaIndex.clear_chat
  | OpenaiAgentsSdk =>
      Adapter OpenAIAgentsSDK.state OpenAIAgentsSDK.init
        (OpenAIAgentsSDK.chat (run_sync P)) OpenAIAgentsSDK.clear_chat
  | OpenaiResponses =>
      Adapter OpenAIResponses.state OpenAIResponses.init
        (OpenAIResponses.chat (tavily_search P) (py_str_other P) (today P)
           (json_loads P) (responses_create P))
        OpenAIResponses.clear_chat
  | Smolagents =>
      Adapter SmolAgents.state SmolAgents.init
        (SmolAgents.chat (agent_run P)) SmolAgents.clear_chat
  end.

(** A call of an adapter: [Chat m] is [chat(m)], [Clear] is [clear_chat()]. *)
Inductive op : Type :=
  | Chat (message : string)
  | Clear.

(** The states an adapter object can be in: the one its constructor leaves,
    and any state a call leads to from one of them. *)
Inductive reachable (a : adapter) : run_state (a_state a) -> Prop :=
  | reach_init (out : list string) : reachable a (RunState (a_init a) out)
  | reach_chat (s : run_state (a_state a)) (message : string) :
      reachable a s -> reachable a (snd (a_chat a message s))
  | reach_clear (s : run_state (a_state a)) :
      reachable a s -> reachable a (snd (a_clear_chat a s)).

(** The reply of [chat(message)] in a state: what the caller gets back. *)
Definition reply (a : adapter) (message : string) (s : run_state (a_state a))
  : outcome string :=
  fst (a_chat a message s).

(** ** agent-ui.py *)

Module AgentUI.

(** An attribute looked up by name: missing, present but not callable, or
    callable. *)
Inductive attr (F : Type) : Type :=
  | Absent
  | NotCallable
  | Callable (f : F).
Arguments Absent {F}.
Arguments NotCallable {F}.
Arguments Callable {F} f.

(** An object as the host sees it: its own state and the three attributes
    the script looks at.  [i_name] is [None] when the object has no [name]
    attribute. *)
Record instance : Type :=
  Instance { i_state : Type;
             i_self : i_state;
             i_name : option string;
             i_chat : attr (string -> py i_state string);
             i_clear_chat : attr (py i_state bool) }.

(** A module: its [Agent] attribute ([Absent] also when it is [None]);
    calling it returns an object, or [None], or raises. *)
Record py_module : Type :=
  PyModule { Agent : attr (outcome (option instance)) }.

(** The object an adapter of the repository gives. *)
Definition instance_of (a : adapter) (display_name : string) : instance :=
  Instance (a_state a) (a_init a) (Some display_name)
    (Callable (a_chat a)) (Callable (a_clear_chat a)).

Definition _is_valid_agent_instance (obj : option instance) : bool :=
  match obj with
  | None => false
  | Some o =>
      match i_name o with
      | None => false
      | Some _ =>
          match i_chat o with
          | Callable _ => true
          | _ => false
          end
      end
  end.

Definition _safe_get_agent_instance (module : py_module) : option instance :=
  match Agent module with
  | Callable (Returns inst) =>
      if _is_valid_agent_instance inst then inst else None
  | _ => None
  end.

(** [s.endswith(suffix)] *)
Definition endswith (s suffix : string) : bool :=
  String.eqb
    (String.substring (String.length s - String.length suffix)
       (String.length suffix) s)
    suffix
  && (String.length suffix <=? String.length s)%nat.

(** [file[:-3]] *)
Definition drop_last3 (file : string) : string :=
  String.substring 0 (String.length file - 3) file.

(** [agents[key] = value] on a dict, which keeps insertion order: an
    existing key keeps its place and takes the new value. *)
Fixpoint dict_set (agents : list (string * string)) (key value : string)
  : list (string * string) :=
  match agents with
  | [] => [(key, value)]
  | (k, v) :: rest =>
      if String.eqb k key then (k, value) :: rest
      else (k, v) :: dict_set rest key value
  end.

Definition invalid_agent : exn :=
  Exn AttributeError "Invalid Agent implementation".

(** What the page shows. *)
Inductive element : Type :=
  | Warning (body : string)
  | Error (body : string)
  | Title (body : string)
  | ChatMessage (who body : string).

(** [st.session_state]: each key is present or not. *)
Record session_state : Type :=
  SessionState { current_agent_type : option string;
                 agent : option instance;
                 messages : option (list turn) }.

Record host : Type := Host { session : session_state; page : list element }.

(** A call of [st.warning], [st.error], [st.title] or [st.markdown]. *)
Definition st (e : element) : py host unit :=
  let! h := get_self in
  set_self (Host (session h) (page h ++ [e])).

Definition get_session : py host session_state :=
  let! h := get_self in ret (session h).

Definition set_session (ss : session_state) : py host unit :=
  let! h := get_self in set_self (Host ss (page h)).

Section Script.

(** [os.listdir('.')]: the names in the working directory, in the order
    the operating system gives them. *)
Variable listdir : list string.
(** [importlib.import_module(name)] *)
Variable import_module : string -> outcome py_module.

(** One iteration of the loop of [get_available_agents]. *)
Definition load_candidate {Self} (agents : list (string * string))
  (file : string) : py Self (list (string * string)) :=
  if endswith file "_agent.py" then
    let module_name := drop_last3 file in
    try_except
      (let! module := call (import_module module_name) in
       match _safe_get_agent_instance module with
       | None => raise invalid_agent
       | Some temp_agent =>
           match i_name temp_agent with
           | Some display_name =>
               ret (dict_set agents module_name display_name)
           | None =>
               raise (Exn AttributeError "object has no attribute 'name'")
           end
       end)
      (fun e =>
         let! _ := print ("Error loading " +:+ module_name +:+ ": "
                          +:+ exn_str e) in
         ret agents)
  else ret agents.

Fixpoint load_candidates {Self} (files : list string)
  (agents : list (string * string)) : py Self (list (string * string)) :=
  match files with
  | [] => ret agents
  | file :: rest =>
      let! agents' := load_candidate agents file in
      load_candidates rest agents'
  end.

Definition get_available_agents {Self} : py Self (list (string * string)) :=
  load_candidates listdir [].

(** [st.sidebar.selectbox(options=...)]: the option the widget holds,
    the first option when it holds none of them. *)
Definition selectbox (options : list string) (held : string) : string :=
  if existsb (String.eqb held) options then held
  else hd "" options.

(** Lines 72 to 100 of the script, after the selection is known: record
    the selection, drop the agent and the history when it changed, build
    the agent when there is none.  The result is [false] when the script
    stops ([st.stop()]). *)
Definition select_agent (selected_agent : string) : py host bool :=
  let! ss := get_session in
  let! _ :=
    match current_agent_type ss with
    | None => set_session (SessionState (Some selected_agent)
                             (agent ss) (messages ss))
    | Some _ => ret tt
    end in
  let! ss := get_session in
  let! _ :=
    if negb (bool_decide (current_agent_type ss = Some selected_agent))
    then set_session
           (SessionState (Some selected_agent) None
              (match messages ss with
               | Some _ => Some []
               | None => None
               end))
    else ret tt in
  let! ss := get_session in
  let! _ :=
    match agent ss with
    | Some _ => ret tt
    | None =>
        try_except
          (let! module := call (import_module selected_agent) in
           match _safe_get_agent_instance module with
           | None => raise invalid_agent
           | Some agent_instance =>
               set_session (SessionState (current_agent_type ss)
                              (Some agent_instance) (messages ss))
           end)
          (fun e => st (Error "Error loading agent."))
    end in
  let! ss := get_session in
  match agent ss with
  | None => ret false
  | Some _ =>
      let! _ :=
        match messages ss with
        | Some _ => ret tt
        | None => set_session (SessionState (current_agent_type ss)
                                 (agent ss) (Some []))
        end in
      ret true
  end.

(** [st.session_state.messages.append(t)] *)
Definition append_message (t : turn) : py host unit :=
  let! ss := get_session in
  match messages ss with
  | Some history =>
      set_session (SessionState (current_agent_type ss) (agent ss)
                     (Some (history ++ [t])))
  | None => raise (Exn AttributeError "st.session_state has no attribute")
  end.

(** [st.session_state.agent.chat(user_input)], then [str(response)]:
    the method runs on the object's own state, which keeps what the call
    did to it. *)
Definition agent_chat (user_input : string) : py host string :=
  fun s =>
    let ss := session (self s) in
    match agent ss with
    | Some (Instance St me display_name (Callable f) clear) =>
        let r := f user_input (RunState me (stdout s)) in
        (fst r,
         RunState
           (Host (SessionState (current_agent_type ss)
                    (Some (Instance St (self (snd r)) display_name
                             (Callable f) clear))
                    (messages ss))
              (page (self s)))
           (stdout (snd r)))
    | Some _ => (Raises (Exn OtherException "'chat' is not callable"), s)
    | None =>
        (Raises (Exn AttributeError "st.session_state has no attribute"), s)
    end.

Definition host_chat_failed : string := "Error: Something went wrong.".

(** Lines 121 to 125: [try: response = ...chat(user_input);
    response_text = str(response)  except Exception: response_text = ...]. *)
Definition get_response (user_input : string) : py host string :=
  try_except (agent_chat user_input) (fun e => ret host_chat_failed).

(** Lines 111 to 128: the body of [if user_input := st.chat_input(...)]. *)
Definition on_user_input (user_input : string) : py host unit :=
  let! _ := append_message (Turn "user" user_input) in
  let! _ := st (ChatMessage "user" user_input) in
  let! response_text := get_response user_input in
  let! _ := st (ChatMessage "assistant" response_text) in
  append_message (Turn "assistant" response_text).

(** [st.session_state.agent.clear_chat()] *)
Definition agent_clear_chat : py host bool :=
  fun s =>
    let ss := session (self s) in
    match agent ss with
    | Some (Instance St me display_name chat_attr (Callable f)) =>
        let r := f (RunState me (stdout s)) in
        (fst r,
         RunState
           (Host (SessionState (current_agent_type ss)
                    (Some (Instance St (self (snd r)) display_name
                             chat_attr (Callable f)))
                    (messages ss))
              (page (self s)))
           (stdout (snd r)))
    | _ => (Raises (Exn AttributeError "clear_chat"), s)
    end.

Definition has_callable_clear_chat (ss : session_state) : bool :=
  match agent ss with
  | Some inst =>
      match i_clear_chat inst with
      | Callable _ => true
      | _ => false
      end
  | None => false
  end.

(** Lines 131 to 138: the body of [if st.sidebar.button("Clear Chat")].
    The [st.rerun()] that ends it starts the next run of the script. *)
Definition on_clear : py host unit :=
  let! ss := get_session in
  let! _ :=
    if has_callable_clear_chat ss
    then try_except (let! _ := agent_clear_chat in ret tt)
                    (fun e => ret tt)
    else ret tt in
  let! ss := get_session in
  set_session (SessionState (current_agent_type ss) (agent ss) (Some [])).

Definition agent_display_name (ss : session_state) : string :=
  match agent ss with
  | Some inst => default "" (i_name inst)
  | None => ""
  end.

Fixpoint show_history (history : list turn) : py host unit :=
  match history with
  | [] => ret tt
  | msg :: rest =>
      let! _ := st (ChatMessage (role msg) (content msg)) in
      show_history rest
  end.

(** One run of the script: [held] is what the selection widget holds,
    [user_input] what the chat input submitted (if anything) and
    [clear_clicked] whether the Clear Chat button was pressed.  The page
    is drawn anew on every run. *)
Definition script (held : string) (user_input : option string)
  (clear_clicked : bool) : py host unit :=
  let! h := get_self in
  let! _ := set_self (Host (session h) []) in
  let! available_agents := get_available_agents in
  match available_agents with
  | [] => st (Warning "No agents found. Please add an *_agent.py module.")
  | _ :: _ =>
      let selected_agent := selectbox (map fst available_agents) held in
      let! go_on := select_agent selected_agent in
      if negb go_on then ret tt
      else
        let! ss := get_session in
        let! _ := st (Title ("Chat with " +:+ agent_display_name ss)) in
        let! _ := show_history (default [] (messages ss)) in
        let! _ :=
          match user_input with
          | Some text =>
              if str_truthy text then on_user_input text else ret tt
          | None => ret tt
          end in
        if clear_clicked then on_clear else ret tt
  end.

End Script.

End AgentUI.

(** ** The pattern [Month DD, YYYY] of the specification

    Written from the specification's words, to compare [date_tool] with: a
    full English month name, a space, two decimal digits, a comma and a
    space, four decimal digits. *)

Definition is_digit (c : ascii) : bool :=
  let n := N_of_ascii c in ((48 <=? n) && (n <=? 57))%N.

Definition digit_value (c : ascii) : Z := Z.of_N (N_of_ascii c) - 48.

Fixpoint strip_prefix (p s : string) : option string :=
  match p, s with
  | "", _ => Some s
  | String a p', String b s' => if Ascii.eqb a b then strip_prefix p' s' else None
  | String _ _, "" => None
  end.

Definition is_dd_yyyy (rest : string) : bool :=
  match rest with
  | String " " (String d1 (String d2 (String "," (String " "
      (String y1 (String y2 (String y3 (String y4 "")))))))) =>
      is_digit d1 && is_digit d2
      && is_digit y1 && is_digit y2 && is_digit y3 && is_digit y4
  | _ => false
  end.

Definition matches_month_dd_yyyy (s : string) : bool :=
  existsb (fun m => match strip_prefix m s with
                    | Some rest => is_dd_yyyy rest
                    | None => false
                    end)
    month_names.

(** ** What a sequence of calls answers *)

Inductive answer : Type :=
  | Replied (text : outcome string)
  | Cleared (ok : outcome bool).

(** The answers of the calls [ops], made one after the other from [s]. *)
Fixpoint answers (a : adapter) (ops : list op) (s : run_state (a_state a))
  : list answer :=
  match ops with
  | [] => []
  | Chat message :: rest =>
      Replied (fst (a_chat a message s))
      :: answers a rest (snd (a_chat a message s))
  | Clear :: rest =>
      Cleared (fst (a_clear_chat a s))
      :: answers a rest (snd (a_clear_chat a s))
  end.

(** The conversation the next [chat] continues, per adapter: the history it
    passes on, the checkpoint of the current thread, the session under the
    current id, the memory, or the id of the previous response. *)
Definition same_conversation (P : providers) (b : backend)
  : a_state (adapter_of P b) -> a_state (adapter_of P b) -> Prop :=
  match b with
  | Crewai => fun x y => CrewAI._messages x = CrewAI._messages y
  | GoogleAdk => fun x y =>
      GoogleADK.sessions x !! GoogleADK._session_id x
      = GoogleADK.sessions y !! GoogleADK._session_id y
  | Langgraph => fun x y =>
      default [] (LangGraph.memory x !! LangGraph.thread_id x)
      = default [] (LangGraph.memory y !! LangGraph.thread_id y)
  | Llamaindex => fun x y => LlamaIndex.memory x = LlamaIndex.memory y
  | OpenaiAgentsSdk => fun x y =>
      OpenAIAgentsSDK.conversation_history x
      = OpenAIAgentsSDK.conversation_history y
  | OpenaiResponses => fun x y =>
      (if OpenAIResponses.id_truthy (OpenAIResponses.previous_response_id x)
       then OpenAIResponses.previous_response_id x else None)
      = (if OpenAIResponses.id_truthy (OpenAIResponses.previous_response_id y)
         then OpenAIResponses.previous_response_id y else None)
  | Smolagents => fun x y => SmolAgents.memory x = SmolAgents.memory y
  end.

(** What holds of every state an adapter reaches: LangGraph has checkpointed
    no thread beyond the current one; Google ADK has created no session
    under an id not drawn yet, and the current id was drawn. *)
Definition well_formed (P : providers) (b : backend)
  : a_state (adapter_of P b) -> Prop :=
  match b with
  | Langgraph => fun x =>
      forall t, LangGraph.thread_id x < t -> LangGraph.memory x !! t = None
  | GoogleAdk => fun x =>
      (GoogleADK._session_id x < GoogleADK.uuid_draws x)%nat
      /\ forall i, (GoogleADK.uuid_draws x <= i)%nat ->
                   GoogleADK.sessions x !! i = None
  | _ => fun _ => True
  end.

(** ** Discovery, candidate by candidate *)

(** What loading one module gives the registry: the display name of the
    object built, when the module imports, its [Agent] builds an object and
    [_is_valid_agent_instance] accepts it. *)
Definition accepted_name (import_module : string -> outcome AgentUI.py_module)
  (module_name : string) : option string :=
  match import_module module_name with
  | Returns module =>
      match AgentUI._safe_get_agent_instance module with
      | Some inst => AgentUI.i_name inst
      | None => None
      end
  | Raises _ => None
  end.

(** The effect of one iteration of the loop of [get_available_agents] on the
    dict. *)
Definition discover_step (import_module : string -> outcome AgentUI.py_module)
  (agents : list (string * string)) (file : string) : list (string * string) :=
  if AgentUI.endswith file "_agent.py" then
    match accepted_name import_module (AgentUI.drop_last3 file) with
    | Some display_name =>
        AgentUI.dict_set agents (AgentUI.drop_last3 file) display_name
    | None => agents
    end
  else agents.

(** A candidate that satisfies what the code checks: the module imports,
    its [Agent] is callable and returns an object that has a [name]
    attribute (of value [display_name], empty or not) and a callable
    [chat]. *)
Definition valid_candidate (import_module : string -> outcome AgentUI.py_module)
  (module_name display_name : string) : Prop :=
  exists module inst f,
    import_module module_name = Returns module
    /\ AgentUI.Agent module = AgentUI.Callable (Returns (Some inst))
    /\ AgentUI.i_name inst = Some display_name
    /\ AgentUI.i_chat inst = AgentUI.Callable f.

(** The order the specification asks of the enumeration: ascending by
    name. *)
Fixpoint lexicographic (names : list string) : bool :=
  match names with
  | [] => true
  | a :: rest =>
      match rest with
      | [] => true
      | b :: _ => String.leb a b && lexicographic rest
      end
  end.

(** A computation that leaves [self] alone and whose result does not depend
    on the state it runs in (it may print). *)
Definition detached {Self A} (c : py Self A) : Prop :=
  (forall s, self (snd (c s)) = self s)
  /\ (forall s1 s2, fst (c s1) = fst (c s2)).

(** The dict [get_available_agents()] returns. *)
Definition available_agents (listdir : list string)
  (import_module : string -> outcome AgentUI.py_module)
  : list (string * string) :=
  match fst (AgentUI.get_available_agents listdir import_module
               (RunState tt []))
  with
  | Returns agents => agents
  | Raises _ => []
  end.

(** A file of the listing that ends up in the dict. *)
Definition discovered (import_module : string -> outcome AgentUI.py_module)
  (file : string) : bool :=
  AgentUI.endswith file "_agent.py"
  && match accepted_name import_module (AgentUI.drop_last3 file) with
     | Some _ => true
     | None => false
     end.

(** A candidate the code drops: the import raises, or the module has no
    callable [Agent], or calling it raises or returns [None], or the object
    built has no [name] attribute or no callable [chat]. *)
Definition rejected_candidate
  (import_module : string -> outcome AgentUI.py_module) (module_name : string)
  : Prop :=
  match import_module module_name with
  | Raises _ => True
  | Returns module =>
      match AgentUI.Agent module with
      | AgentUI.Callable (Returns (Some inst)) =>
          AgentUI.i_name inst = None
          \/ AgentUI.i_chat inst = AgentUI.Absent
          \/ AgentUI.i_chat inst = AgentUI.NotCallable
      | _ => True
      end
  end.

(** [files] holds a file that makes it into the dict under [key]. *)
Definition offers (import_module : string -> outcome AgentUI.py_module)
  (files : list string) (key : string) : Prop :=
  exists file,
    file ∈ files /\ AgentUI.endswith file "_agent.py" = true
    /\ key = AgentUI.drop_last3 file
    /\ is_Some (accepted_name import_module key).

(** ** Sample data for the instances below *)

Definition sample_results : list json :=
  [JDict [("title", JStr "Rocq"); ("score", JFloat "0.9")];
   JDict [("title", JStr "Stdlib"); ("score", JFloat "0.5")]].

Definition sample_search (q : json) : outcome (list (string * json)) :=
  Returns [("query", q); ("results", JList sample_results)].


(** Providers that answer from what the conversation holds: the reply
    counts the entries stored before the message. *)
Definition sample_reply (stored : nat) (message : string) : string :=
  match stored with
  | O => "first: " +:+ message
  | S _ => "again: " +:+ message
  end.

Definition sample_providers : providers :=
  Providers
    (fun message history =>
       Returns (sample_reply (List.length history) message))
    (fun events message =>
       (Stream [GoogleADK.Event (Some true)
                  (Some (sample_reply (List.length events) message)) None]
          None,
        events ++ [message]))
    (fun checkpoint message =>
       (Stream [LangGraph.Event
                  (Some [LangGraph.Message
                           (Some (sample_reply (List.length checkpoint) message))])]
          None,
        checkpoint ++ [message]))
    (fun memory message =>
       (Returns (sample_reply (List.length memory) message), memory ++ [message]))
    (fun memory message =>
       (Returns (sample_reply (List.length memory) message), memory ++ [message]))
    (fun history => Returns (sample_reply (List.length history - 1) "reply"))
    sample_search
    (fun _ => "")
    (Date 2025 3 7)
    (fun _ => None)
    (fun request =>
       Returns (OpenAIResponses.Response "resp_1" []
                  (Some (match OpenAIResponses.with_previous request with
                         | Some _ => "again"
                         | None => "first"
                         end))))
    (fun memory message =>
       (Returns (sample_reply (List.length memory) message), memory ++ [message])).

(** An object with the given [name], a [chat] that echoes, and no
    [clear_chat]. *)
Definition echo_instance (display_name : string) : AgentUI.instance :=
  AgentUI.Instance unit tt (Some display_name)
    (AgentUI.Callable (fun message => ret message)) AgentUI.Absent.

Definition module_of (inst : AgentUI.instance) : AgentUI.py_module :=
  AgentUI.PyModule (AgentUI.Callable (Returns (Some inst))).

(** A working directory's modules: two adapters of the repository, one
    module whose import fails, one whose object has an empty name; any
    other name imports a module with an echoing agent of that name. *)
Definition sample_import (module_name : string) : outcome AgentUI.py_module :=
  if String.eqb module_name "crewai_agent" then
    Returns (module_of (AgentUI.instance_of
                          (adapter_of sample_providers Crewai) "CrewAI Agent"))
  else if String.eqb module_name "smolagents_agent" then
    Returns (module_of (AgentUI.instance_of
                          (adapter_of sample_providers Smolagents)
                          "SmolAgents Agent"))
  else if String.eqb module_name "broken_agent" then
    Raises (Exn OtherException "TAVILY_API_KEY is not set")
  else if String.eqb module_name "ghost_agent" then
    Returns (module_of (echo_instance ""))
  else Returns (module_of (echo_instance module_name)).

Definition sample_listing : list string :=
  ["smolagents_agent.py"; "notes.txt"; "broken_agent.py"; "crewai_agent.py"].

(** The session after a first run of the script in which the CrewAI agent
    is selected and the user sends ["hi"]. *)
Definition sample_session : AgentUI.session_state :=
  AgentUI.session
    (self (snd (AgentUI.script sample_listing sample_import "crewai_agent"
                  (Some "hi") false
                  (RunState (AgentUI.Host
                               (AgentUI.SessionState None None None) [])
                     [])))).

(** ** The [main] loops of the adapter files

    Each adapter file ends with the same console loop; only the words that
    end it differ. *)

(** [c.lower()] for one character: the upper-case letters among the code
    points below 256 are [A] .. [Z] and U+00C0 .. U+00DE without the
    multiplication sign U+00D7; each has its lower-case letter 32 further. *)
Definition lower_char (c : ascii) : ascii :=
  let n := N_of_ascii c in
  if ((65 <=? n) && (n <=? 90)
      || (192 <=? n) && (n <=? 222) && negb (n =? 215))%N
  then ascii_of_N (n + 32)
  else c.

(** [s.lower()] *)
Fixpoint str_lower (s : string) : string :=
  match s with
  | "" => ""
  | String c rest => String (lower_char c) (str_lower rest)
  end.

(** The words that end the loop: [query.lower() == 'exit'] in
    crewai_agent.py, [query.lower() in ['exit', 'quit']] in the other six
    files. *)
Definition exit_words (b : backend) : list string :=
  match b with
  | Crewai => ["exit"]
  | _ => ["exit"; "quit"]
  end.

Definition is_exit (words : list string) (query : string) : bool :=
  existsb (String.eqb (str_lower query)) words.

(** The [while True] loop of [main], on the lines the standard input still
    holds; it returns the lines it has not read.  [input("You: ")] writes
    the prompt to the standard output (it is recorded as an entry of its
    own) and returns the next line, or raises [EOFError] at the end of the
    input. *)
Fixpoint main_loop (a : adapter) (words : list string) (stdin : list string)
  : py (a_state a) (list string) :=
  let! _ := print "You: " in
  match stdin with
  | [] => raise (Exn OtherException "EOF when reading a line")
  | query :: lines =>
      if is_exit words query then ret lines
      else
        let! response := a_chat a query in
        let! _ := print ("Assistant: " +:+ response) in
        main_loop a words lines
  end.

(** [main()]: [agent = Agent()], then the loop. *)
Definition main (P : providers) (b : backend) (stdin : list string)
  : outcome (list string) * run_state (a_state (adapter_of P b)) :=
  main_loop (adapter_of P b) (exit_words b) stdin
    (RunState (a_init (adapter_of P b)) []).

(** ** Notions used by the further properties *)

(** A history made of pairs: a user's entry, then the assistant's. *)
Fixpoint well_paired (history : list turn) : bool :=
  match history with
  | [] => true
  | first :: rest =>
      match rest with
      | [] => false
      | second :: rest' =>
          String.eqb (role first) "user"
          && String.eqb (role second) "assistant"
          && well_paired rest'
      end
  end.

(** The [call_id] of a tool result, [None] for a user's message. *)
Definition call_id_of (item : OpenAIResponses.input_item) : option string :=
  match item with
  | OpenAIResponses.FunctionCallOutput call_id _ => Some call_id
  | OpenAIResponses.UserMessage _ => None
  end.

(** The state after the calls [ops], made one after the other from [s]. *)
Fixpoint after (a : adapter) (ops : list op) (s : run_state (a_state a))
  : run_state (a_state a) :=
  match ops with
  | [] => s
  | Chat message :: rest => after a rest (snd (a_chat a message s))
  | Clear :: rest => after a rest (snd (a_clear_chat a s))
  end.

(** Reading back a text of the form [Month DD, YYYY]: the month whose name
    starts the text, then the day and the year from their digits. *)
Fixpoint month_of (names : list string) (number : Z) (text : string)
  : option (Z * string) :=
  match names with
  | [] => None
  | m :: rest =>
      match strip_prefix m text with
      | Some tail => Some (number, tail)
      | None => month_of rest (number + 1) text
      end
  end.

Definition parse_date (text : string) : option date :=
  match month_of month_names 1 text with
  | Some (m, String " " (String d1 (String d2 (String "," (String " "
      (String y1 (String y2 (String y3 (String y4 ""))))))))) =>
      if forallb is_digit [d1; d2; y1; y2; y3; y4] then
        Some (Date (1000 * digit_value y1 + 100 * digit_value y2
                    + 10 * digit_value y3 + digit_value y4)
                m
                (10 * digit_value d1 + digit_value d2))
      else None
  | _ => None
  end.

(** A provider of responses that asks for the date once: the first
    response holds one call of the tool [date], the follow-up the text. *)
Definition sample_tool_call : OpenAIResponses.output_item :=
  OpenAIResponses.OutputItem (Some "function_call") "date" "" "call_1".

Definition sample_create (request : OpenAIResponses.request)
  : outcome OpenAIResponses.response :=
  match OpenAIResponses.with_previous request with
  | Some _ =>
      Returns (OpenAIResponses.Response "resp_2" [] (Some "It is March."))
  | None =>
      Returns (OpenAIResponses.Response "resp_1"
                 [OpenAIResponses.OutputItem None "" "" ""; sample_tool_call]
                 None)
  end.

(** Providers whose model asks for a web search on the first request while
    the search provider is down. *)
Definition search_call : OpenAIResponses.output_item :=
  OpenAIResponses.OutputItem (Some "function_call") "web_search"
    "{...}" "call_2".

Definition search_down_providers : providers :=
  Providers
    (crew_kickoff sample_providers) (run_async sample_providers)
    (graph_stream sample_providers) (asyncio_run sample_providers)
    (loop_run_until_complete sample_providers) (run_sync sample_providers)
    (fun _ => Raises (Exn OtherException "503 Service Unavailable"))
    (py_str_other sample_providers) (today sample_providers)
    (fun _ => Some (JDict [("query", JStr "rocq")]))
    (fun _ => Returns (OpenAIResponses.Response "resp_1" [search_call] None))
    (agent_run sample_providers).

(** * Properties *)

(** ** The effect monad *)

Ltac py_unfold :=
  unfold try_except, try_except_class, bind, ret, raise, call, get_self,
    set_self, print in *.

(** A [try ... except Exception] block whose handler always returns never
    raises. *)
Lemma try_except_returns {Self A} (body : py Self A) (handler : exn -> py Self A) :
  (forall e s, exists a s', handler e s = (Returns a, s')) ->
  forall s, exists a s', try_except body handler s = (Returns a, s').
Proof.
  intros Hh s. unfold try_except.
  destruct (body s) as [[a | e] s'].
  - exists a, s'. reflexivity.
  - apply Hh.
Qed.

Lemma print_then_ret_returns {Self A} (line : exn -> string) (a : A) :
  forall (e : exn) (s : run_state Self),
  exists a' s', (let! _ := print (line e) in ret a) s = (Returns a', s').
Proof. intros e s. py_unfold. eauto. Qed.

(** ** Totality of [chat] *)

Lemma chat_returns (P : providers) (b : backend) (message : string)
  (s : run_state (a_state (adapter_of P b))) :
  exists text s', a_chat (adapter_of P b) message s = (Returns text, s').
Proof.
  destruct b; cbn [adapter_of a_chat a_state] in *;
    apply try_except_returns; intros e s0;
    first [ apply (print_then_ret_returns (fun e => "Error in chat: " +:+ exn_str e))
          | py_unfold; eauto ].
Qed.


(** ** [clear_chat] of the adapters that keep their conversation themselves *)

(** C10. For the CrewAI, OpenAI Agents SDK and OpenAI Responses adapters,
    [clear_chat] returns [True] in every state: the assignment in its [try]
    block does not raise, so the handler (which would print and return
    [False]) never runs and nothing is printed. *)
Theorem C10_clear_chat_returns_true :
  (forall s : run_state CrewAI.state,
     CrewAI.clear_chat s
     = (Returns true,
        RunState (CrewAI.State (CrewAI.name (self s)) []) (stdout s)))
  /\ (forall s : run_state OpenAIAgentsSDK.state,
        OpenAIAgentsSDK.clear_chat s
        = (Returns true,
           RunState (OpenAIAgentsSDK.State (OpenAIAgentsSDK.name (self s))
                       (OpenAIAgentsSDK.model (self s)) [])
             (stdout s)))
  /\ (forall s : run_state OpenAIResponses.state,
        OpenAIResponses.clear_chat s
        = (Returns true,
           RunState (OpenAIResponses.State (OpenAIResponses.name (self s))
                       (OpenAIResponses.model (self s)) None)
             (stdout s))).
Proof.
  repeat split; intros s; reflexivity.
Qed.

(** ** The date tool *)

Lemma digit_char_cases (n : Z) :
  exists k, 0 <= k < 10 /\ n mod 10 = k
            /\ digit_char n = ascii_of_nat (48 + Z.to_nat k).
Proof.
  exists (n mod 10). repeat split; try reflexivity;
    apply Z.mod_pos_bound; lia.
Qed.

Lemma digit_char_is_digit (n : Z) : is_digit (digit_char n) = true.
Proof.
  destruct (digit_char_cases n) as (k & Hk & _ & ->).
  assert (Hc : k = 0 \/ k = 1 \/ k = 2 \/ k = 3 \/ k = 4 \/ k = 5 \/ k = 6
               \/ k = 7 \/ k = 8 \/ k = 9) by lia.
  repeat (destruct Hc as [-> | Hc]; [reflexivity |]). subst. reflexivity.
Qed.

Lemma digit_char_value (n : Z) : digit_value (digit_char n) = n mod 10.
Proof.
  destruct (digit_char_cases n) as (k & Hk & -> & ->).
  assert (Hc : k = 0 \/ k = 1 \/ k = 2 \/ k = 3 \/ k = 4 \/ k = 5 \/ k = 6
               \/ k = 7 \/ k = 8 \/ k = 9) by lia.
  repeat (destruct Hc as [-> | Hc]; [reflexivity |]). subst. reflexivity.
Qed.

Lemma date_tool_unfold (d : date) :
  date_tool d
  = directive_B d +:+ " " +:+ directive_d d +:+ ", " +:+ directive_Y d.
Proof.
  unfold date_tool. cbn [strftime]. unfold directive_d, directive_Y.
  cbn [String.append]. reflexivity.
Qed.

(** C8. For every date [today] the host clock gives, [date_tool] returns the
    full name of its month, a space, its day as two zero-padded digits, a
    comma and a space, and its year as four digits; the text matches the
    pattern [Month DD, YYYY]; and a second call on the same calendar day
    returns the same text. *)
Theorem C8_date_tool_format (today : date) :
  date_in_range today ->
  (exists (m : string) (d1 d2 y1 y2 y3 y4 : ascii),
     month_names !! Z.to_nat (month today - 1) = Some m
     /\ date_tool today
        = m +:+ " " +:+ String d1 (String d2 "") +:+ ", "
          +:+ String y1 (String y2 (String y3 (String y4 "")))
     /\ forallb is_digit [d1; d2; y1; y2; y3; y4] = true
     /\ 10 * digit_value d1 + digit_value d2 = day today
     /\ 1000 * digit_value y1 + 100 * digit_value y2
        + 10 * digit_value y3 + digit_value y4 = year today)
  /\ matches_month_dd_yyyy (date_tool today) = true
  /\ (forall again : date,
        year again = year today -> month again = month today ->
        day again = day today -> date_tool again = date_tool today).
Proof.
  intros (Hy & Hm & Hd). destruct today as [y m d]. cbn [year month day] in *.
  assert (Hc : m = 1 \/ m = 2 \/ m = 3 \/ m = 4 \/ m = 5 \/ m = 6 \/ m = 7
               \/ m = 8 \/ m = 9 \/ m = 10 \/ m = 11 \/ m = 12) by lia.
  split; [| split].
  - exists (directive_B (Date y m d)), (digit_char (d / 10)), (digit_char d),
      (digit_char (y / 1000)), (digit_char (y / 100)), (digit_char (y / 10)),
      (digit_char y).
    split; [| split; [| split; [| split]]].
    + unfold directive_B. cbn [month].
      repeat (destruct Hc as [-> | Hc]; [reflexivity |]). subst. reflexivity.
    + apply date_tool_unfold.
    + cbn [forallb]. rewrite !digit_char_is_digit. reflexivity.
    + rewrite !digit_char_value. Z.to_euclidean_division_equations. lia.
    + rewrite !digit_char_value. Z.to_euclidean_division_equations. lia.
  - rewrite date_tool_unfold. unfold directive_B, directive_d, directive_Y.
    cbn [month day year].
    repeat (destruct Hc as [-> | Hc];
            [vm_compute (nth _ month_names ""); unfold matches_month_dd_yyyy;
             cbv [String.append]; cbn -[is_digit digit_char];
             rewrite !digit_char_is_digit; reflexivity |]).
    subst. vm_compute (nth _ month_names ""). unfold matches_month_dd_yyyy.
    cbv [String.append]. cbn -[is_digit digit_char].
    rewrite !digit_char_is_digit. reflexivity.
  - intros [y' m' d']. cbn [year month day]. intros -> -> ->. reflexivity.
Qed.

Lemma C8_witness :
  date_in_range (Date 2025 3 7)
  /\ date_tool (Date 2025 3 7) = "March 07, 2025"
  /\ matches_month_dd_yyyy (date_tool (Date 2025 3 7)) = true.
Proof.
  split; [unfold date_in_range; cbn; lia |].
  split; [reflexivity |].
  apply (C8_date_tool_format (Date 2025 3 7)).
  unfold date_in_range; cbn; lia.
Defined.

(** ** The web search tool *)



(** ** Faults during a chat turn *)

(** The adapters that answer a fault with a fixed text: CrewAI here (the
    LangGraph, Llama-Index and both OpenAI adapters have the same handler
    with their own fixed text). *)
Lemma crewai_chat_fault (kickoff : string -> list turn -> outcome string)
  (message : string) (s : run_state CrewAI.state) (e : exn) :
  kickoff message (CrewAI._messages (self s)) = Raises e ->
  CrewAI.chat kickoff message s
  = (Returns CrewAI.chat_failed,
     RunState (self s) (stdout s ++ ["Error in chat: " +:+ exn_str e])).
Proof.
  intros H. unfold CrewAI.chat. py_unfold. cbn. rewrite H. reflexivity.
Qed.

(** The two adapters that answer with the text of the exception. *)
Lemma smolagents_chat_fault
  (agent_run : list string -> string -> outcome string * list string)
  (message : string) (s : run_state SmolAgents.state) (e : exn) :
  fst (agent_run (SmolAgents.memory (self s)) message) = Raises e ->
  fst (SmolAgents.chat agent_run message s)
  = Returns ("System Error: " +:+ exn_str e).
Proof.
  intros H. unfold SmolAgents.chat. py_unfold. cbn. rewrite H. reflexivity.
Qed.

Lemma google_adk_chat_fault
  (run_async : list string -> string -> stream GoogleADK.event * list string)
  (message : string) (s : run_state GoogleADK.state) (events : list string)
  (e : exn) :
  GoogleADK.sessions (self s) !! GoogleADK._session_id (self s) = Some events ->
  stops_with (fst (run_async events message)) = Some e ->
  fst (GoogleADK.chat run_async message s)
  = Returns ("System Error: " +:+ exn_str e).
Proof.
  intros Hs H. unfold GoogleADK.chat, GoogleADK._run. py_unfold. cbn.
  rewrite Hs. cbn. rewrite H. reflexivity.
Qed.

(** C1 (the code does not do this).  In the Google ADK adapter a run that
    stops with an exception, and in the SmolAgents adapter a run that
    raises, is answered with ["System Error: "] followed by the text of the
    exception, whatever that text holds. *)
Theorem C1_exception_text_reaches_the_reply :
  fst (GoogleADK.chat
         (fun _ _ =>
            (Stream []
               (Some (Exn OtherException
                        "Incorrect API key provided: sk-live-1234")), []))
         "hello" (RunState GoogleADK.init []))
  = Returns "System Error: Incorrect API key provided: sk-live-1234"
  /\ fst (SmolAgents.chat
            (fun _ _ =>
               (Raises (Exn OtherException
                          "Incorrect API key provided: sk-live-1234"), []))
            "hello" (RunState SmolAgents.init []))
     = Returns "System Error: Incorrect API key provided: sk-live-1234".
Proof. split; reflexivity. Qed.

(** ** Conversations: what [chat] and [clear_chat] depend on *)

Lemma detached_ret {Self A} (a : A) : detached (@ret Self A a).
Proof. split; reflexivity. Qed.

Lemma detached_raise {Self A} (e : exn) : detached (@raise Self A e).
Proof. split; reflexivity. Qed.

Lemma detached_call {Self A} (o : outcome A) : detached (@call Self A o).
Proof. split; reflexivity. Qed.

Lemma detached_print {Self} (line : string) : detached (@print Self line).
Proof. split; reflexivity. Qed.

Lemma detached_bind {Self A B} (c : py Self A) (k : A -> py Self B) :
  detached c -> (forall a, detached (k a)) -> detached (bind c k).
Proof.
  intros [Hc1 Hc2] Hk. split.
  - intros s. unfold bind. specialize (Hc1 s).
    destruct (c s) as [[a | e] s']; cbn in *; [| exact Hc1].
    rewrite (proj1 (Hk a)). exact Hc1.
  - intros s1 s2. unfold bind. specialize (Hc2 s1 s2).
    destruct (c s1) as [[a1 | e1] s1'], (c s2) as [[a2 | e2] s2'];
      cbn in *; try congruence.
    inversion Hc2; subst. apply (proj2 (Hk a2)).
Qed.

Lemma detached_web_search {Self}
  (search : json -> outcome (list (string * json))) (other : json -> string)
  (query : json) : detached (@web_search search other Self query).
Proof.
  unfold web_search.
  repeat (apply detached_bind; [| intros ?]);
    auto using detached_call, detached_print, detached_ret.
Qed.

Section ResponsesDetached.

Variable tavily_search : json -> outcome (list (string * json)).
Variable py_str_other : json -> string.
Variable today : date.
Variable json_loads : string -> option json.
Variable responses_create :
  OpenAIResponses.request -> outcome OpenAIResponses.response.

Lemma detached_call_tool (tool_name : string) (tool_input : json) :
  detached (OpenAIResponses._call_tool tavily_search py_str_other today
              tool_name tool_input).
Proof.
  unfold OpenAIResponses._call_tool.
  destruct (String.eqb tool_name "date"); [apply detached_ret |].
  destruct (String.eqb tool_name "web_search"); [| apply detached_ret].
  destruct tool_input;
    auto using detached_raise, detached_web_search.
Qed.

Lemma detached_run_tool_calls (items : list OpenAIResponses.output_item) :
  detached (OpenAIResponses.run_tool_calls tavily_search py_str_other today
              json_loads items).
Proof.
  induction items as [| item rest IH]; cbn [OpenAIResponses.run_tool_calls].
  - apply detached_ret.
  - destruct (OpenAIResponses.is_function_call item); [| exact IH].
    apply detached_bind; [apply detached_call_tool | intros result].
    apply detached_bind; [exact IH | intros more]. apply detached_ret.
Qed.

Lemma detached_process_response (r : OpenAIResponses.response)
  (input_items : list OpenAIResponses.input_item) :
  detached (OpenAIResponses._process_response tavily_search py_str_other
              today json_loads responses_create r input_items).
Proof.
  unfold OpenAIResponses._process_response.
  destruct (negb _); [apply detached_ret |].
  apply detached_bind; [apply detached_run_tool_calls | intros results].
  apply detached_bind; [apply detached_call | intros follow_up].
  apply detached_ret.
Qed.

End ResponsesDetached.

Lemma responses_chat_same (P : providers) (message : string)
  (s1 s2 : run_state OpenAIResponses.state) :
  same_conversation P OpenaiResponses (self s1) (self s2) ->
  fst (a_chat (adapter_of P OpenaiResponses) message s1)
  = fst (a_chat (adapter_of P OpenaiResponses) message s2)
  /\ same_conversation P OpenaiResponses
       (self (snd (a_chat (adapter_of P OpenaiResponses) message s1)))
       (self (snd (a_chat (adapter_of P OpenaiResponses) message s2))).
Proof.
  cbn [adapter_of a_chat a_state same_conversation]. intros Hsim.
  unfold OpenAIResponses.chat.
  set (req := fun s : run_state OpenAIResponses.state =>
         if OpenAIResponses.id_truthy
              (OpenAIResponses.previous_response_id (self s))
         then OpenAIResponses.Request [OpenAIResponses.UserMessage message]
                (OpenAIResponses.previous_response_id (self s))
         else OpenAIResponses.Request [OpenAIResponses.UserMessage message] None).
  assert (Hreq : req s1 = req s2).
  { unfold req.
    destruct (OpenAIResponses.id_truthy
                (OpenAIResponses.previous_response_id (self s1))) eqn:E1,
             (OpenAIResponses.id_truthy
                (OpenAIResponses.previous_response_id (self s2))) eqn:E2;
      rewrite ?E1, ?E2 in Hsim; try reflexivity.
    - rewrite Hsim. reflexivity.
    - rewrite Hsim in E1. discriminate.
    - rewrite <- Hsim in E2. discriminate. }
  assert (Hstep : forall s : run_state OpenAIResponses.state,
    (if OpenAIResponses.id_truthy
          (OpenAIResponses.previous_response_id (self s))
     then @call OpenAIResponses.state _
            (responses_create P
               (OpenAIResponses.Request [OpenAIResponses.UserMessage message]
                  (OpenAIResponses.previous_response_id (self s))))
     else call (responses_create P
                  (OpenAIResponses.Request
                     [OpenAIResponses.UserMessage message] None)))
    = call (responses_create P (req s))).
  { intros s. unfold req.
    destruct (OpenAIResponses.id_truthy
                (OpenAIResponses.previous_response_id (self s)));
      reflexivity. }
  py_unfold. cbn [self stdout]. rewrite !Hstep, Hreq. unfold call.
  destruct (responses_create P (req s2)) as [r | e]; cbn [fst snd self].
  - pose proof (detached_process_response (tavily_search P) (py_str_other P)
                  (today P) (json_loads P) (responses_create P) r
                  [OpenAIResponses.UserMessage message]) as [Hself Hres].
    specialize (Hres s1 s2).
    pose proof (Hself s1) as H1. pose proof (Hself s2) as H2.
    destruct (OpenAIResponses._process_response _ _ _ _ _ r _ s1)
      as [[[[t1 i1] l1] | e1] s1'],
      (OpenAIResponses._process_response _ _ _ _ _ r _ s2)
      as [[[[t2 i2] l2] | e2] s2'];
      cbn in *; try congruence.
    + inversion Hres; subst. split; reflexivity.
    + split; [reflexivity |]. rewrite H1, H2. exact Hsim.
  - split; [reflexivity | exact Hsim].
Qed.

(** Two states that carry the same conversation give the same reply to the
    same message, and carry the same conversation afterwards. *)
Lemma chat_same_conversation (P : providers) (b : backend) (message : string)
  (s1 s2 : run_state (a_state (adapter_of P b))) :
  same_conversation P b (self s1) (self s2) ->
  fst (a_chat (adapter_of P b) message s1)
  = fst (a_chat (adapter_of P b) message s2)
  /\ same_conversation P b
       (self (snd (a_chat (adapter_of P b) message s1)))
       (self (snd (a_chat (adapter_of P b) message s2))).
Proof.
  destruct b; [ | | | | | apply responses_chat_same | ];
    cbn [adapter_of a_chat a_state same_conversation] in *; intros Hsim.
  - (* CrewAI *)
    destruct s1 as [[nm1 h1] out1], s2 as [[nm2 h2] out2]. cbn in Hsim.
    subst. unfold CrewAI.chat. py_unfold. cbn.
    destruct (crew_kickoff P message h2); cbn; auto.
  - (* Google ADK *)
    destruct s1 as [[nm1 uid1 sid1 sess1 draws1] out1],
             s2 as [[nm2 uid2 sid2 sess2 draws2] out2]. cbn in Hsim.
    unfold GoogleADK.chat, GoogleADK._run. py_unfold. cbn. rewrite Hsim.
    destruct (sess2 !! sid2) as [events |] eqn:E; cbn.
    + destruct (stops_with (fst (run_async P events message))); cbn;
        rewrite !lookup_insert_eq; auto.
    + rewrite E, <- Hsim. auto.
  - (* LangGraph *)
    destruct s1 as [[nm1 tid1 mem1] out1], s2 as [[nm2 tid2 mem2] out2].
    cbn in Hsim. unfold LangGraph.chat. py_unfold. cbn. rewrite Hsim.
    destruct (LangGraph.collect _ _); cbn;
      [destruct (stops_with _); cbn |]; rewrite !lookup_insert_eq; auto.
  - (* Llama-Index *)
    destruct s1 as [[nm1 mem1] out1], s2 as [[nm2 mem2] out2]. cbn in Hsim.
    subst. unfold LlamaIndex.chat, LlamaIndex.run_with. py_unfold. cbn.
    destruct (asyncio_run P mem2 message) as [[r | e] m']; cbn; auto.
    destruct (exn_class_eqb _ _); cbn; auto.
    destruct (str_contains _ _); cbn; auto.
    destruct (loop_run_until_complete P m' message) as [[r | e'] m''];
      cbn; auto.
  - (* OpenAI Agents SDK *)
    destruct s1 as [[nm1 md1 h1] out1], s2 as [[nm2 md2 h2] out2].
    cbn in Hsim. subst.
    unfold OpenAIAgentsSDK.chat, OpenAIAgentsSDK.append_history.
    py_unfold. cbn. destruct (run_sync P _); cbn; auto.
  - (* SmolAgents *)
    destruct s1 as [[nm1 mem1] out1], s2 as [[nm2 mem2] out2]. cbn in Hsim.
    subst. unfold SmolAgents.chat. py_unfold. cbn.
    destruct (agent_run P mem2 message) as [[r | e] m']; cbn; auto.
Qed.

Lemma well_formed_init (P : providers) (b : backend) :
  well_formed P b (a_init (adapter_of P b)).
Proof.
  destruct b; cbn; auto.
  - split; [lia |]. intros i Hi.
    unfold GoogleADK.init. cbn. apply lookup_singleton_ne. lia.
Qed.

Lemma well_formed_chat (P : providers) (b : backend) (message : string)
  (s : run_state (a_state (adapter_of P b))) :
  well_formed P b (self s) ->
  well_formed P b (self (snd (a_chat (adapter_of P b) message s))).
Proof.
  destruct b; cbn [adapter_of a_chat a_state well_formed]; auto; intros Hwf.
  - (* Google ADK *)
    destruct s as [[nm uid sid sess draws] out]. cbn [self] in Hwf.
    destruct Hwf as [Hlt Hnone]. cbn in Hlt, Hnone.
    unfold GoogleADK.chat, GoogleADK._run. py_unfold. cbn.
    destruct (sess !! sid) as [events |] eqn:E; cbn; [| auto].
    assert (Hins : forall i, (draws <= i)%nat ->
              <[sid := snd (run_async P events message)]> sess !! i = None).
    { intros i Hi. rewrite lookup_insert_ne by lia. auto. }
    destruct (stops_with _); cbn; auto.
  - (* LangGraph *)
    destruct s as [[nm tid mem] out]. cbn in Hwf.
    unfold LangGraph.chat. py_unfold. cbn.
    assert (Hins : forall v t, tid < t -> <[tid := v]> mem !! t = None).
    { intros v t Ht. rewrite lookup_insert_ne by lia. auto. }
    destruct (LangGraph.collect _ _); cbn;
      [destruct (stops_with _); cbn |]; auto.
Qed.

(** From a well-formed state, [clear_chat] returns [True], and the state
    it leaves carries the conversation of a newly built object. *)
Lemma clear_chat_resets (P : providers) (b : backend)
  (s : run_state (a_state (adapter_of P b))) :
  well_formed P b (self s) ->
  fst (a_clear_chat (adapter_of P b) s) = Returns true
  /\ same_conversation P b (self (snd (a_clear_chat (adapter_of P b) s)))
       (a_init (adapter_of P b))
  /\ well_formed P b (self (snd (a_clear_chat (adapter_of P b) s))).
Proof.
  destruct b; cbn [adapter_of a_clear_chat a_init a_state well_formed
                     same_conversation];
    intros Hwf; try (cbn; auto; fail).
  - (* Google ADK *)
    destruct s as [[nm uid sid sess draws] out]. cbn [self] in Hwf.
    destruct Hwf as [Hlt Hnone]. cbn in Hlt, Hnone.
    unfold GoogleADK.clear_chat, GoogleADK.uuid4, GoogleADK.create_session.
    py_unfold. cbn. rewrite (Hnone draws) by lia. cbn.
    rewrite lookup_insert_eq. repeat split; auto.
    intros i Hi. rewrite lookup_insert_ne by lia. apply Hnone. lia.
  - (* LangGraph *)
    destruct s as [[nm tid mem] out]. cbn in Hwf.
    unfold LangGraph.clear_chat, LangGraph._inc_thread_id. py_unfold. cbn.
    rewrite (Hwf (tid + 1)) by lia. repeat split; auto.
    intros t Ht. apply Hwf. lia.
Qed.

Lemma reachable_well_formed (P : providers) (b : backend)
  (s : run_state (a_state (adapter_of P b))) :
  reachable (adapter_of P b) s -> well_formed P b (self s).
Proof.
  induction 1 as [out | s message _ IH | s _ IH].
  - apply well_formed_init.
  - apply well_formed_chat, IH.
  - apply clear_chat_resets, IH.
Qed.

Lemma clear_same_conversation (P : providers) (b : backend)
  (s1 s2 : run_state (a_state (adapter_of P b))) :
  well_formed P b (self s1) -> well_formed P b (self s2) ->
  fst (a_clear_chat (adapter_of P b) s1) = fst (a_clear_chat (adapter_of P b) s2)
  /\ same_conversation P b
       (self (snd (a_clear_chat (adapter_of P b) s1)))
       (self (snd (a_clear_chat (adapter_of P b) s2))).
Proof.
  intros H1 H2.
  destruct (clear_chat_resets P b s1 H1) as (R1 & C1 & _).
  destruct (clear_chat_resets P b s2 H2) as (R2 & C2 & _).
  split; [congruence |].
  revert C1 C2. generalize (self (snd (a_clear_chat (adapter_of P b) s1))).
  generalize (self (snd (a_clear_chat (adapter_of P b) s2))).
  generalize (a_init (adapter_of P b)).
  destruct b; cbn [adapter_of a_state same_conversation]; congruence.
Qed.

(** States that carry the same conversation answer every sequence of calls
    alike. *)
Lemma answers_same_conversation (P : providers) (b : backend) (ops : list op) :
  forall s1 s2 : run_state (a_state (adapter_of P b)),
  well_formed P b (self s1) -> well_formed P b (self s2) ->
  same_conversation P b (self s1) (self s2) ->
  answers (adapter_of P b) ops s1 = answers (adapter_of P b) ops s2.
Proof.
  induction ops as [| [message |] rest IH]; intros s1 s2 W1 W2 Hsim;
    cbn [answers]; [reflexivity | |].
  - destruct (chat_same_conversation P b message s1 s2 Hsim) as [-> Hnext].
    f_equal. apply IH; auto using well_formed_chat.
  - destruct (clear_same_conversation P b s1 s2 W1 W2) as [-> Hnext].
    f_equal. apply IH; auto; apply clear_chat_resets; assumption.
Qed.

(** ** Reset *)

(** C3. For each of the seven adapters and any state [s] the object has
    reached: when [clear_chat] returns [True], the reply of the next [chat]
    is the reply a newly built object gives to the same message.  In
    particular [clear_chat] leaves the OpenAI Responses adapter with
    [previous_response_id] [None], so that the next [chat] takes the branch
    that starts a new conversation (its request names no previous response,
    and a response without tool calls is answered with its text), and the
    OpenAI Agents SDK adapter with an empty [conversation_history]. *)
Theorem C3_chat_after_clear_is_a_first_chat :
  (forall (P : providers) (b : backend)
          (s s' : run_state (a_state (adapter_of P b))) (message : string),
     reachable (adapter_of P b) s ->
     a_clear_chat (adapter_of P b) s = (Returns true, s') ->
     reply (adapter_of P b) message s'
     = reply (adapter_of P b) message (RunState (a_init (adapter_of P b)) []))
  /\ (forall s : run_state OpenAIResponses.state,
        OpenAIResponses.previous_response_id
          (self (snd (OpenAIResponses.clear_chat s))) = None)
  /\ (forall (P : providers) (s : run_state OpenAIResponses.state)
             (message : string) (r : OpenAIResponses.response),
        responses_create P
          (OpenAIResponses.Request [OpenAIResponses.UserMessage message] None)
        = Returns r ->
        existsb OpenAIResponses.is_function_call (OpenAIResponses.output r)
        = false ->
        reply (adapter_of P OpenaiResponses) message
          (snd (OpenAIResponses.clear_chat s))
        = Returns (OpenAIResponses.text_of r))
  /\ (forall s : run_state OpenAIAgentsSDK.state,
        OpenAIAgentsSDK.conversation_history
          (self (snd (OpenAIAgentsSDK.clear_chat s))) = []).
Proof.
  split; [| split; [intros s; reflexivity | split; [| intros s; reflexivity]]].
  2: { intros P s message r Hcreate Hplain. unfold reply.
       cbn [adapter_of a_chat a_state].
       unfold OpenAIResponses.chat, OpenAIResponses._process_response.
       py_unfold. cbn. rewrite Hcreate. cbn. rewrite Hplain. reflexivity. }
  intros P b s s' message Hreach Hclear. unfold reply.
  apply chat_same_conversation.
  destruct (clear_chat_resets P b s (reachable_well_formed P b s Hreach))
    as (_ & Hconv & _).
  rewrite Hclear in Hconv. exact Hconv.
Qed.

Lemma C3_witness :
  reply (adapter_of sample_providers Langgraph) "hello"
    (RunState (a_init (adapter_of sample_providers Langgraph)) [])
  = Returns "first: hello"
  /\ reply (adapter_of sample_providers Langgraph) "hello"
       (snd (a_chat (adapter_of sample_providers Langgraph) "hi"
               (RunState (a_init (adapter_of sample_providers Langgraph)) [])))
     = Returns "again: hello"
  /\ reply (adapter_of sample_providers Langgraph) "hello"
       (snd (a_clear_chat (adapter_of sample_providers Langgraph)
               (snd (a_chat (adapter_of sample_providers Langgraph) "hi"
                       (RunState (a_init (adapter_of sample_providers Langgraph))
                          [])))))
     = reply (adapter_of sample_providers Langgraph) "hello"
         (RunState (a_init (adapter_of sample_providers Langgraph)) []).
Proof.
  split; [reflexivity |]. split; [reflexivity |].
  exact (proj1 C3_chat_after_clear_is_a_first_chat sample_providers Langgraph
           _ _ "hello"
           (reach_chat _ _ "hi" (reach_init _ []))
           eq_refl).
Defined.

(** C6. For each of the seven adapters and any state the object has
    reached, [clear_chat] returns [True], and called again at once it
    returns [True] again; nothing is raised.  After the second call, as
    after the first, the object answers every sequence of calls as a newly
    built object does. *)
Theorem C6_clear_chat_is_idempotent (P : providers) (b : backend)
  (s : run_state (a_state (adapter_of P b))) :
  reachable (adapter_of P b) s ->
  exists s1 s2,
    a_clear_chat (adapter_of P b) s = (Returns true, s1)
    /\ a_clear_chat (adapter_of P b) s1 = (Returns true, s2)
    /\ forall ops : list op,
         answers (adapter_of P b) ops s2
         = answers (adapter_of P b) ops (RunState (a_init (adapter_of P b)) [])
         /\ answers (adapter_of P b) ops s1
            = answers (adapter_of P b) ops
                (RunState (a_init (adapter_of P b)) []).
Proof.
  intros Hreach.
  pose proof (reachable_well_formed P b s Hreach) as W.
  destruct (clear_chat_resets P b s W) as (R1 & C1 & W1).
  destruct (clear_chat_resets P b _ W1) as (R2 & C2 & W2).
  exists (snd (a_clear_chat (adapter_of P b) s)),
         (snd (a_clear_chat (adapter_of P b)
                 (snd (a_clear_chat (adapter_of P b) s)))).
  split; [| split].
  - rewrite <- R1. apply surjective_pairing.
  - rewrite <- R2. apply surjective_pairing.
  - intros ops.
    split; apply answers_same_conversation;
      auto using well_formed_init.
Qed.

Lemma C6_witness :
  exists s1 s2,
    a_clear_chat (adapter_of sample_providers GoogleAdk)
      (snd (a_chat (adapter_of sample_providers GoogleAdk) "hi"
              (RunState (a_init (adapter_of sample_providers GoogleAdk)) [])))
    = (Returns true, s1)
    /\ a_clear_chat (adapter_of sample_providers GoogleAdk) s1
       = (Returns true, s2)
    /\ forall ops : list op,
         answers (adapter_of sample_providers GoogleAdk) ops s2
         = answers (adapter_of sample_providers GoogleAdk) ops
             (RunState (a_init (adapter_of sample_providers GoogleAdk)) [])
         /\ answers (adapter_of sample_providers GoogleAdk) ops s1
            = answers (adapter_of sample_providers GoogleAdk) ops
                (RunState (a_init (adapter_of sample_providers GoogleAdk)) []).
Proof.
  exact (C6_clear_chat_is_idempotent sample_providers GoogleAdk _
           (reach_chat _ _ "hi" (reach_init _ []))).
Defined.

(** ** Discovery *)

Lemma valid_candidate_accepted
  (import_module : string -> outcome AgentUI.py_module)
  (module_name display_name : string) :
  accepted_name import_module module_name = Some display_name
  <-> valid_candidate import_module module_name display_name.
Proof.
  unfold accepted_name, valid_candidate, AgentUI._safe_get_agent_instance,
    AgentUI._is_valid_agent_instance.
  split.
  - destruct (import_module module_name) as [module | e]; [| discriminate].
    destruct (AgentUI.Agent module) as [| | [[inst |] | e]] eqn:EA;
      try discriminate.
    destruct (AgentUI.i_name inst) as [n |] eqn:En; [| discriminate].
    destruct (AgentUI.i_chat inst) as [| | f] eqn:Ec; try discriminate.
    rewrite En. intros [= ->]. exists module, inst, f. auto.
  - intros (module & inst & f & -> & -> & En & Ec).
    rewrite En, Ec. exact En.
Qed.

Section Discovery.

Context {Self : Type}.
Variable import_module : string -> outcome AgentUI.py_module.

Lemma load_candidate_step (agents : list (string * string)) (file : string)
  (s : run_state Self) :
  exists out,
    AgentUI.load_candidate import_module agents file s
    = (Returns (discover_step import_module agents file),
       RunState (self s) out).
Proof.
  destruct s as [me out].
  unfold AgentUI.load_candidate, discover_step, accepted_name.
  destruct (AgentUI.endswith file "_agent.py"); [| eexists; reflexivity].
  py_unfold.
  destruct (import_module (AgentUI.drop_last3 file)) as [module | e];
    [| eexists; reflexivity].
  destruct (AgentUI._safe_get_agent_instance module) as [inst |];
    [| eexists; reflexivity].
  destruct (AgentUI.i_name inst); eexists; reflexivity.
Qed.

Lemma load_candidates_fold (files : list string) :
  forall (agents : list (string * string)) (s : run_state Self),
  exists out,
    AgentUI.load_candidates import_module files agents s
    = (Returns (fold_left (discover_step import_module) files agents),
       RunState (self s) out).
Proof.
  induction files as [| file rest IH]; intros agents s;
    cbn [AgentUI.load_candidates fold_left].
  - exists (stdout s). destruct s. reflexivity.
  - unfold bind.
    destruct (load_candidate_step agents file s) as [out ->].
    destruct (IH (discover_step import_module agents file)
                (RunState (self s) out)) as [out' ->].
    exists out'. reflexivity.
Qed.

End Discovery.

Lemma dict_set_keys (agents : list (string * string)) (key value : string) :
  map fst (AgentUI.dict_set agents key value)
  = if bool_decide (key ∈ map fst agents) then map fst agents
    else map fst agents ++ [key].
Proof.
  induction agents as [| [k v] rest IH]; cbn [AgentUI.dict_set map fst].
  - rewrite bool_decide_eq_false_2 by apply not_elem_of_nil. reflexivity.
  - destruct (String.eqb k key) eqn:E.
    + apply String.eqb_eq in E. subst.
      rewrite bool_decide_eq_true_2 by apply list_elem_of_here. reflexivity.
    + apply String.eqb_neq in E. cbn [map fst]. rewrite IH.
      destruct (bool_decide (key ∈ map fst rest)) eqn:D.
      * apply bool_decide_eq_true_1 in D.
        rewrite bool_decide_eq_true_2 by (apply list_elem_of_further, D).
        reflexivity.
      * apply bool_decide_eq_false_1 in D.
        rewrite bool_decide_eq_false_2; [reflexivity |].
        rewrite elem_of_cons. intros [-> | ?]; [congruence | contradiction].
Qed.

Lemma dict_set_key_in (agents : list (string * string)) (key value k : string) :
  k ∈ map fst (AgentUI.dict_set agents key value)
  <-> k ∈ map fst agents \/ k = key.
Proof.
  rewrite dict_set_keys.
  destruct (bool_decide (key ∈ map fst agents)) eqn:D.
  - apply bool_decide_eq_true_1 in D. split; [auto |].
    intros [? | ->]; assumption.
  - rewrite elem_of_app, list_elem_of_singleton. reflexivity.
Qed.

Lemma dict_set_entries (agents : list (string * string)) (key value : string)
  (k v : string) :
  (k, v) ∈ AgentUI.dict_set agents key value ->
  (k, v) ∈ agents \/ (k = key /\ v = value).
Proof.
  induction agents as [| [k0 v0] rest IH]; cbn [AgentUI.dict_set].
  - rewrite list_elem_of_singleton. intros [= -> ->]. auto.
  - destruct (String.eqb k0 key) eqn:E.
    + apply String.eqb_eq in E. subst. rewrite !elem_of_cons.
      intros [[= -> ->] | ?]; auto.
    + rewrite !elem_of_cons. intros [? | H]; [auto |].
      destruct (IH H); auto.
Qed.

Section DiscoveredSet.

Variable import_module : string -> outcome AgentUI.py_module.

Lemma discover_step_keys (agents : list (string * string)) (file k : string) :
  k ∈ map fst (discover_step import_module agents file)
  <-> k ∈ map fst agents \/ offers import_module [file] k.
Proof.
  unfold discover_step, offers.
  destruct (AgentUI.endswith file "_agent.py") eqn:E.
  - destruct (accepted_name import_module (AgentUI.drop_last3 file))
      as [n |] eqn:A.
    + rewrite dict_set_key_in. split.
      * intros [? | ->]; [auto |]. right. exists file.
        rewrite list_elem_of_singleton, A. eauto.
      * intros [? | (f & Hf & _ & -> & _)]; [auto |].
        apply list_elem_of_singleton in Hf. subst. auto.
    + split; [auto |].
      intros [? | (f & Hf & _ & -> & Hs)]; [assumption |].
      apply list_elem_of_singleton in Hf. subst. rewrite A in Hs.
      destruct Hs; discriminate.
  - split; [auto |].
    intros [? | (f & Hf & He & _)]; [assumption |].
    apply list_elem_of_singleton in Hf. subst. congruence.
Qed.

Lemma discovered_keys (files : list string) :
  forall (agents : list (string * string)) (k : string),
  k ∈ map fst (fold_left (discover_step import_module) files agents)
  <-> k ∈ map fst agents \/ offers import_module files k.
Proof.
  induction files as [| file rest IH]; intros agents k; cbn [fold_left].
  - split; [auto |]. intros [? | (f & Hf & _)]; [assumption |].
    apply elem_of_nil in Hf. contradiction.
  - rewrite IH, discover_step_keys. unfold offers. split.
    + intros [[? | (f & Hf & H)] | (f & Hf & H)]; [auto | |].
      * apply list_elem_of_singleton in Hf. subst. right. exists file.
        split; [apply list_elem_of_here | exact H].
      * right. exists f. split; [apply list_elem_of_further, Hf | exact H].
    + intros [? | (f & Hf & H)]; [auto |].
      apply elem_of_cons in Hf as [-> | Hf].
      * left. right. exists file.
        split; [apply list_elem_of_singleton; reflexivity | exact H].
      * right. exists f. auto.
Qed.

Lemma discovered_entries (files : list string) :
  forall (agents : list (string * string)) (k v : string),
  (k, v) ∈ fold_left (discover_step import_module) files agents ->
  (k, v) ∈ agents \/ accepted_name import_module k = Some v.
Proof.
  induction files as [| file rest IH]; intros agents k v; cbn [fold_left];
    [auto |].
  intros H. destruct (IH _ _ _ H) as [Hin | ?]; [| auto].
  unfold discover_step in Hin.
  destruct (AgentUI.endswith file "_agent.py"); [| auto].
  destruct (accepted_name import_module (AgentUI.drop_last3 file))
    as [n |] eqn:A; [| auto].
  destruct (dict_set_entries _ _ _ _ _ Hin) as [? | [-> ->]]; auto.
Qed.

End DiscoveredSet.

(** ** File names and module names *)

Lemma append_cons (c : ascii) (a b : string) :
  String c a +:+ b = String c (a +:+ b).
Proof. reflexivity. Qed.

Lemma append_empty (b : string) : "" +:+ b = b.
Proof. reflexivity. Qed.

Lemma substring_prefix_append (a b : string) :
  String.substring 0 (String.length a) (a +:+ b) = a.
Proof.
  induction a as [| c a IH].
  - rewrite append_empty. destruct b; reflexivity.
  - rewrite append_cons. cbn. rewrite IH. reflexivity.
Qed.

Lemma string_length_append (a b : string) :
  String.length (a +:+ b) = (String.length a + String.length b)%nat.
Proof.
  induction a as [| c a IH]; [reflexivity |].
  rewrite append_cons. cbn. rewrite IH. reflexivity.
Qed.

Lemma string_append_assoc (a b c : string) :
  (a +:+ b) +:+ c = a +:+ (b +:+ c).
Proof.
  induction a as [| x a IH]; [reflexivity |].
  rewrite !append_cons, IH. reflexivity.
Qed.

Lemma substring_all (s : string) :
  String.substring 0 (String.length s) s = s.
Proof. induction s as [| c s IH]; cbn; [reflexivity | rewrite IH; reflexivity]. Qed.

Lemma substring_split (s : string) :
  forall n, (n <= String.length s)%nat ->
  String.substring 0 n s +:+ String.substring n (String.length s - n) s = s.
Proof.
  induction s as [| c s IH]; intros n Hn; cbn in Hn.
  - assert (n = 0%nat) by lia. subst. reflexivity.
  - destruct n as [| n].
    + rewrite Nat.sub_0_r.
      change (String.substring 0 0 (String c s)) with "".
      rewrite append_empty. apply substring_all.
    + cbn [String.substring String.length Nat.sub].
      rewrite append_cons, IH by lia. reflexivity.
Qed.

Lemma endswith_split (s suffix : string) :
  AgentUI.endswith s suffix = true ->
  exists p, s = p +:+ suffix.
Proof.
  unfold AgentUI.endswith. intros H. apply andb_true_iff in H as [He Hl].
  apply String.eqb_eq in He. apply Nat.leb_le in Hl.
  exists (String.substring 0 (String.length s - String.length suffix) s).
  pose proof (substring_split s (String.length s - String.length suffix)
                ltac:(lia)) as Hs.
  replace (String.length s - (String.length s - String.length suffix))%nat
    with (String.length suffix) in Hs by lia.
  rewrite He in Hs. symmetry. exact Hs.
Qed.

(** A file the loop accepts is its module name followed by [".py"]. *)
Lemma agent_file_name (file : string) :
  AgentUI.endswith file "_agent.py" = true ->
  file = AgentUI.drop_last3 file +:+ ".py".
Proof.
  intros H. destruct (endswith_split _ _ H) as [p ->].
  unfold AgentUI.drop_last3.
  change "_agent.py" with ("_agent" +:+ ".py").
  rewrite <- string_append_assoc.
  replace (String.length ((p +:+ "_agent") +:+ ".py") - 3)%nat
    with (String.length (p +:+ "_agent")).
  - rewrite substring_prefix_append. reflexivity.
  - rewrite (string_length_append (p +:+ "_agent") ".py"). cbn. lia.
Qed.

Lemma module_names_distinct (files : list string) :
  NoDup files ->
  NoDup (map AgentUI.drop_last3
           (List.filter (fun file => AgentUI.endswith file "_agent.py") files)).
Proof.
  induction 1 as [| file rest Hnotin Hnd IH]; [constructor |].
  cbn [List.filter].
  destruct (AgentUI.endswith file "_agent.py") eqn:He; [| exact IH].
  cbn [map]. constructor; [| exact IH].
  intros Hin. apply list_elem_of_fmap in Hin as (other & Heq & Hother).
  apply list_elem_of_In, filter_In in Hother as [Hin Ho].
  apply Hnotin, list_elem_of_In.
  rewrite (agent_file_name file He), Heq, <- (agent_file_name other Ho).
  exact Hin.
Qed.

Lemma discovered_order (import_module : string -> outcome AgentUI.py_module)
  (files : list string) :
  forall agents : list (string * string),
  NoDup (map fst agents
         ++ map AgentUI.drop_last3
              (List.filter (fun file => AgentUI.endswith file "_agent.py")
                 files)) ->
  map fst (fold_left (discover_step import_module) files agents)
  = map fst agents
    ++ map AgentUI.drop_last3 (List.filter (discovered import_module) files).
Proof.
  induction files as [| file rest IH]; intros agents Hnd;
    cbn [fold_left List.filter] in *.
  - cbn. rewrite app_nil_r. reflexivity.
  - unfold discover_step, discovered at 1.
    destruct (AgentUI.endswith file "_agent.py") eqn:E; cbn [andb].
    + cbn [map] in Hnd.
      destruct (accepted_name import_module (AgentUI.drop_last3 file))
        as [n |] eqn:A.
      * cbn [map].
        assert (Hfresh : AgentUI.drop_last3 file ∉ map fst agents).
        { apply NoDup_app in Hnd as (_ & Hdis & _). intros Hin.
          apply (Hdis _ Hin). apply list_elem_of_here. }
        rewrite IH.
        -- rewrite dict_set_keys, bool_decide_eq_false_2 by exact Hfresh.
           rewrite <- app_assoc. reflexivity.
        -- rewrite dict_set_keys, bool_decide_eq_false_2 by exact Hfresh.
           rewrite <- app_assoc. exact Hnd.
      * apply IH.
        apply NoDup_app in Hnd as (H1 & Hdis & H2).
        apply NoDup_cons in H2 as [_ H2].
        apply NoDup_app. repeat split; auto.
        intros x Hx Hin. apply (Hdis x Hx). apply list_elem_of_further, Hin.
    + apply IH, Hnd.
Qed.

Lemma rejected_not_valid (import_module : string -> outcome AgentUI.py_module)
  (module_name : string) :
  rejected_candidate import_module module_name ->
  accepted_name import_module module_name = None.
Proof.
  unfold rejected_candidate, accepted_name, AgentUI._safe_get_agent_instance,
    AgentUI._is_valid_agent_instance.
  destruct (import_module module_name) as [module | e]; [| reflexivity].
  destruct (AgentUI.Agent module) as [| | [[inst |] | e]]; try reflexivity.
  intros [-> | [-> | ->]]; [reflexivity | |];
    destruct (AgentUI.i_name inst); reflexivity.
Qed.

(** C4 (as the code has it).  Discovery never raises and leaves the
    caller's state alone.  A candidate is dropped when its import raises,
    its module has no callable [Agent], the call raises or returns [None],
    or the object has no [name] attribute or no callable [chat]: its key
    is not in the dict.  Every file of the listing that ends in
    [_agent.py] and whose module builds an object with a [name] attribute
    (empty or not) and a callable [chat] is in the dict under its module
    name, with that name, whatever the other candidates do.  Nothing else
    is in the dict. *)
Theorem C4_discovery_keeps_the_valid_candidates {Self : Type}
  (listdir : list string)
  (import_module : string -> outcome AgentUI.py_module)
  (s : run_state Self) :
  exists agents out,
    AgentUI.get_available_agents listdir import_module s
    = (Returns agents, RunState (self s) out)
    /\ (forall key,
          rejected_candidate import_module key -> key ∉ map fst agents)
    /\ (forall file display_name,
          file ∈ listdir -> AgentUI.endswith file "_agent.py" = true ->
          valid_candidate import_module (AgentUI.drop_last3 file) display_name ->
          (AgentUI.drop_last3 file, display_name) ∈ agents)
    /\ (forall key display_name,
          (key, display_name) ∈ agents ->
          valid_candidate import_module key display_name
          /\ exists file,
               file ∈ listdir /\ AgentUI.endswith file "_agent.py" = true
               /\ key = AgentUI.drop_last3 file).
Proof.
  unfold AgentUI.get_available_agents.
  destruct (load_candidates_fold import_module listdir [] s) as [out Hrun].
  exists (fold_left (discover_step import_module) listdir []), out.
  split; [exact Hrun |].
  assert (Hentry : forall key display_name,
            (key, display_name)
            ∈ fold_left (discover_step import_module) listdir [] ->
            accepted_name import_module key = Some display_name).
  { intros key n Hin.
    destruct (discovered_entries import_module listdir [] key n Hin)
      as [Hnil | H]; [| exact H].
    apply elem_of_nil in Hnil. contradiction. }
  assert (Hkey : forall key,
            key ∈ map fst (fold_left (discover_step import_module) listdir [])
            <-> offers import_module listdir key).
  { intros key. rewrite discovered_keys. split; [| auto].
    intros [Hnil | H]; [| exact H].
    apply elem_of_nil in Hnil. contradiction. }
  split; [| split].
  - intros key Hrej Hin. apply Hkey in Hin as (file & _ & _ & _ & Hsome).
    rewrite (rejected_not_valid _ _ Hrej) in Hsome.
    destruct Hsome; discriminate.
  - intros file n Hfile Hends Hvalid.
    apply valid_candidate_accepted in Hvalid.
    assert (Hin : AgentUI.drop_last3 file
                  ∈ map fst (fold_left (discover_step import_module) listdir [])).
    { apply Hkey. exists file. rewrite Hvalid. eauto. }
    apply list_elem_of_fmap in Hin as ([k n'] & Hk & Hin). cbn in Hk. subst k.
    pose proof (Hentry _ _ Hin) as Hacc. rewrite Hvalid in Hacc.
    injection Hacc as <-. exact Hin.
  - intros key n Hin. split.
    + apply valid_candidate_accepted, Hentry, Hin.
    + assert (Hk : key ∈ map fst
                (fold_left (discover_step import_module) listdir [])).
      { apply list_elem_of_fmap. exists (key, n). auto. }
      apply Hkey in Hk as (file & ? & ? & ? & _). eauto.
Qed.

(** The claim as the specification words it fails: an object whose name is
    the empty string is kept. *)
Lemma C4_empty_name_is_kept :
  AgentUI.i_name (echo_instance "") = Some ""
  /\ fst (AgentUI.get_available_agents ["ghost_agent.py"] sample_import
            (RunState tt []))
     = Returns [("ghost_agent", "")].
Proof. split; reflexivity. Qed.

(** C5 (as the code has it).  The candidates are enumerated in the order of
    the directory listing, which the code does not sort: for a listing
    without repeated names, the keys of the dict are the module names of
    the files kept, in the order the listing has them. *)
Theorem C5_discovery_follows_the_listing {Self : Type}
  (listdir : list string)
  (import_module : string -> outcome AgentUI.py_module)
  (s : run_state Self) :
  NoDup listdir ->
  exists agents out,
    AgentUI.get_available_agents listdir import_module s
    = (Returns agents, RunState (self s) out)
    /\ map fst agents
       = map AgentUI.drop_last3
           (List.filter (discovered import_module) listdir).
Proof.
  intros Hnd. unfold AgentUI.get_available_agents.
  destruct (load_candidates_fold import_module listdir [] s) as [out Hrun].
  exists (fold_left (discover_step import_module) listdir []), out.
  split; [exact Hrun |].
  apply (discovered_order import_module listdir []).
  cbn [map app]. apply module_names_distinct, Hnd.
Qed.

Lemma C5_witness :
  NoDup sample_listing
  /\ exists agents out,
       AgentUI.get_available_agents sample_listing sample_import
         (RunState tt [])
       = (Returns agents, RunState tt out)
       /\ map fst agents = ["smolagents_agent"; "crewai_agent"].
Proof.
  assert (Hnd : NoDup sample_listing).
  { repeat (apply NoDup_cons_2;
              [intros H;
               repeat (apply elem_of_cons in H as [H | H]; [discriminate H |]);
               apply elem_of_nil in H; exact H |]).
    apply NoDup_nil_2. }
  split; [exact Hnd |].
  exact (C5_discovery_follows_the_listing sample_listing sample_import
           (RunState tt []) Hnd).
Defined.

(** The claim as the specification words it fails: a listing that is not
    in ascending order is enumerated as it is. *)
Lemma C5_listing_order_is_kept :
  fst (AgentUI.get_available_agents
         ["smolagents_agent.py"; "crewai_agent.py"] sample_import
         (RunState tt []))
  = Returns [("smolagents_agent", "SmolAgents Agent");
             ("crewai_agent", "CrewAI Agent")]
  /\ lexicographic ["smolagents_agent"; "crewai_agent"] = false.
Proof. split; reflexivity. Qed.

(** ** Switching the selected agent *)




Lemma available_agents_fold (listdir : list string)
  (import_module : string -> outcome AgentUI.py_module) :
  available_agents listdir import_module
  = fold_left (discover_step import_module) listdir [].
Proof.
  unfold available_agents, AgentUI.get_available_agents.
  destruct (load_candidates_fold import_module listdir [] (RunState tt []))
    as [out ->].
  reflexivity.
Qed.



(** * Further properties of the code *)

(** ** The host script: one message, one clear *)

(** X1. A message sent while an agent is held puts two turns at the end of
    the host's history, the user's and then the assistant's, and shows
    both on the page.  The assistant's text is what the agent's [chat]
    returned, or the host's fixed text when [chat] raised; the object held
    keeps the state [chat] left it in.  Nothing is raised either way. *)
Theorem X1_message_appends_user_then_assistant_turn
  (St : Type) (me : St) (display_name : option string)
  (f : string -> py St string) (clear : AgentUI.attr (py St bool))
  (selection : option string) (history : list turn)
  (shown : list AgentUI.element) (out : list string) (user_input : string) :
  AgentUI.on_user_input user_input
    (RunState
       (AgentUI.Host
          (AgentUI.SessionState selection
             (Some (AgentUI.Instance St me display_name
                      (AgentUI.Callable f) clear))
             (Some history))
          shown)
       out)
  = let r := f user_input (RunState me out) in
    let response_text :=
      match fst r with
      | Returns text => text
      | Raises _ => AgentUI.host_chat_failed
      end in
    (Returns tt,
     RunState
       (AgentUI.Host
          (AgentUI.SessionState selection
             (Some (AgentUI.Instance St (self (snd r)) display_name
                      (AgentUI.Callable f) clear))
             (Some (history ++ [Turn "user" user_input;
                                Turn "assistant" response_text])))
          (shown ++ [AgentUI.ChatMessage "user" user_input;
                     AgentUI.ChatMessage "assistant" response_text]))
       (stdout (snd r))).
Proof.
  unfold AgentUI.on_user_input, AgentUI.append_message, AgentUI.get_response,
    AgentUI.st, AgentUI.get_session, AgentUI.set_session, AgentUI.agent_chat.
  py_unfold. cbn.
  destruct (f user_input (RunState me out)) as [[text | e] s']; cbn;
    rewrite <- !app_assoc; reflexivity.
Qed.

(** X2. Pressing Clear Chat always ends with an empty host history and
    never raises: whether the object held has a callable [clear_chat] or
    not, and whether that call returns [True], returns [False] or raises.
    The recorded selection and the page are left as they were, and a
    callable [clear_chat] has been run on the object held. *)
Theorem X2_clear_empties_history_whatever_the_agent_does
  (s : run_state AgentUI.host) :
  exists s',
    AgentUI.on_clear s = (Returns tt, s')
    /\ AgentUI.messages (AgentUI.session (self s')) = Some []
    /\ AgentUI.current_agent_type (AgentUI.session (self s'))
       = AgentUI.current_agent_type (AgentUI.session (self s))
    /\ AgentUI.page (self s') = AgentUI.page (self s)
    /\ AgentUI.agent (AgentUI.session (self s'))
       = match AgentUI.agent (AgentUI.session (self s)) with
         | Some (AgentUI.Instance St me display_name chat_attr
                   (AgentUI.Callable f)) =>
             Some (AgentUI.Instance St
                     (self (snd (f (RunState me (stdout s)))))
                     display_name chat_attr (AgentUI.Callable f))
         | held => held
         end.
Proof.
  destruct s as [[[selection held history] shown] out].
  unfold AgentUI.on_clear, AgentUI.get_session, AgentUI.set_session,
    AgentUI.has_callable_clear_chat, AgentUI.agent_clear_chat.
  py_unfold. cbn.
  destruct held as [[St me display_name chat_attr [| | f]] |]; cbn;
    try (eexists; repeat split; reflexivity).
  destruct (f (RunState me out)) as [[ok | e] s']; cbn;
    eexists; repeat split; reflexivity.
Qed.

(** ** The host script: selection *)

(** X3. Selecting the agent that is already selected changes nothing: the
    object held, its conversation and the host's history stay as they are,
    and no module is imported (the outcome is the same whatever
    [import_module] would do). *)
Theorem X3_same_selection_changes_nothing
  (import_module : string -> outcome AgentUI.py_module)
  (s : run_state AgentUI.host) (selected : string)
  (inst : AgentUI.instance) (history : list turn) :
  AgentUI.current_agent_type (AgentUI.session (self s)) = Some selected ->
  AgentUI.agent (AgentUI.session (self s)) = Some inst ->
  AgentUI.messages (AgentUI.session (self s)) = Some history ->
  AgentUI.select_agent import_module selected s = (Returns true, s).
Proof.
  destruct s as [[[selection held msgs] shown] out]. cbn.
  intros -> -> ->.
  unfold AgentUI.select_agent, AgentUI.get_session, AgentUI.set_session.
  py_unfold. cbn.
  rewrite bool_decide_eq_true_2 by reflexivity. reflexivity.
Qed.

Lemma X3_witness :
  AgentUI.select_agent (fun _ => Raises (Exn OtherException "unused"))
    "crewai_agent" (RunState (AgentUI.Host sample_session []) [])
  = (Returns true, RunState (AgentUI.Host sample_session []) []).
Proof.
  destruct (AgentUI.agent sample_session) as [inst |] eqn:E;
    [| discriminate E].
  exact (X3_same_selection_changes_nothing
           (fun _ => Raises (Exn OtherException "unused"))
           (RunState (AgentUI.Host sample_session []) []) "crewai_agent"
           inst [Turn "user" "hi"; Turn "assistant" "first: hi"]
           eq_refl E eq_refl).
Defined.

Lemma safe_get_has_name (module : AgentUI.py_module) (inst : AgentUI.instance) :
  AgentUI._safe_get_agent_instance module = Some inst ->
  exists display_name, AgentUI.i_name inst = Some display_name.
Proof.
  unfold AgentUI._safe_get_agent_instance, AgentUI._is_valid_agent_instance.
  destruct (AgentUI.Agent module) as [| | [[i |] | e]]; try discriminate.
  destruct (AgentUI.i_name i) as [n |] eqn:En; [| discriminate].
  destruct (AgentUI.i_chat i); try discriminate.
  intros [= <-]. eauto.
Qed.

(** X4. When no agent is held, or the selection changed, and the selected
    module does not give an accepted object (its import raises, or
    [_safe_get_agent_instance] returns [None]), the script shows the one
    fixed text ["Error loading agent."], prints nothing, holds no agent,
    records the selection and stops. *)
Theorem X4_failed_load_shows_fixed_text_and_stops
  (import_module : string -> outcome AgentUI.py_module)
  (ss : AgentUI.session_state) (shown : list AgentUI.element)
  (out : list string) (selected : string) :
  AgentUI.agent ss = None
  \/ (exists previous,
        AgentUI.current_agent_type ss = Some previous
        /\ previous <> selected) ->
  accepted_name import_module selected = None ->
  exists history,
    AgentUI.select_agent import_module selected
      (RunState (AgentUI.Host ss shown) out)
    = (Returns false,
       RunState
         (AgentUI.Host (AgentUI.SessionState (Some selected) None history)
            (shown ++ [AgentUI.Error "Error loading agent."]))
         out).
Proof.
  intros Hheld Hfail. destruct ss as [selection held msgs]. cbn in Hheld.
  unfold accepted_name in Hfail.
  unfold AgentUI.select_agent, AgentUI.get_session, AgentUI.set_session,
    AgentUI.st.
  py_unfold.
  destruct selection as [cur |]; cbn.
  - destruct (decide (cur = selected)) as [-> | Hne].
    + destruct Hheld as [-> | (previous & [= ->] & Hp)]; [| contradiction].
      exists msgs. rewrite bool_decide_eq_true_2 by reflexivity. cbn.
      destruct (import_module selected) as [module | e]; [| reflexivity].
      cbn. destruct (AgentUI._safe_get_agent_instance module) as [inst |] eqn:E;
        [| reflexivity].
      destruct (safe_get_has_name _ _ E) as [n Hn]. congruence.
    + exists (match msgs with Some _ => Some [] | None => None end).
      rewrite bool_decide_eq_false_2 by congruence. cbn.
      destruct (import_module selected) as [module | e]; [| reflexivity].
      cbn. destruct (AgentUI._safe_get_agent_instance module) as [inst |] eqn:E;
        [| reflexivity].
      destruct (safe_get_has_name _ _ E) as [n Hn]. congruence.
  - destruct Hheld as [-> | (previous & [=] & _)].
    exists msgs. rewrite bool_decide_eq_true_2 by reflexivity. cbn.
    destruct (import_module selected) as [module | e]; [| reflexivity].
    cbn. destruct (AgentUI._safe_get_agent_instance module) as [inst |] eqn:E;
      [| reflexivity].
    destruct (safe_get_has_name _ _ E) as [n Hn]. congruence.
Qed.

Lemma X4_witness :
  exists history,
    AgentUI.select_agent sample_import "broken_agent"
      (RunState (AgentUI.Host sample_session []) [])
    = (Returns false,
       RunState
         (AgentUI.Host
            (AgentUI.SessionState (Some "broken_agent") None history)
            [AgentUI.Error "Error loading agent."])
         []).
Proof.
  assert (Hne : "crewai_agent" <> "broken_agent") by discriminate.
  exact (X4_failed_load_shows_fixed_text_and_stops sample_import
           sample_session [] [] "broken_agent"
           (or_intror (ex_intro _ "crewai_agent" (conj eq_refl Hne)))
           eq_refl).
Defined.

(** ** Discovery: which files count *)

Lemma load_candidates_skip (import_module : string -> outcome AgentUI.py_module)
  {Self : Type} (files : list string) :
  forall (agents : list (string * string)) (s : run_state Self),
  AgentUI.load_candidates import_module files agents s
  = AgentUI.load_candidates import_module
      (List.filter (fun file => AgentUI.endswith file "_agent.py") files)
      agents s.
Proof.
  induction files as [| file rest IH]; intros agents s; [reflexivity |].
  cbn [List.filter AgentUI.load_candidates].
  destruct (AgentUI.endswith file "_agent.py") eqn:E.
  - cbn [AgentUI.load_candidates]. unfold bind.
    destruct (AgentUI.load_candidate import_module agents file s)
      as [[agents' | e] s']; [apply IH | reflexivity].
  - unfold bind, AgentUI.load_candidate. rewrite E. cbn. apply IH.
Qed.

(** X5. Discovery looks only at the names that end in [_agent.py]: the
    other entries of the directory are neither imported nor reported, so
    the dict and the lines printed are those of the listing without
    them. *)
Theorem X5_discovery_ignores_other_files {Self : Type}
  (listdir : list string)
  (import_module : string -> outcome AgentUI.py_module)
  (s : run_state Self) :
  AgentUI.get_available_agents listdir import_module s
  = AgentUI.get_available_agents
      (List.filter (fun file => AgentUI.endswith file "_agent.py") listdir)
      import_module s.
Proof. apply load_candidates_skip. Qed.

Lemma substring_suffix_append (p q : string) :
  String.substring (String.length p) (String.length q) (p +:+ q) = q.
Proof.
  induction p as [| c p IH].
  - rewrite append_empty. apply substring_all.
  - rewrite append_cons. exact IH.
Qed.

Lemma endswith_append (p suffix : string) :
  AgentUI.endswith (p +:+ suffix) suffix = true.
Proof.
  unfold AgentUI.endswith. rewrite string_length_append.
  replace (String.length p + String.length suffix - String.length suffix)%nat
    with (String.length p) by lia.
  rewrite substring_suffix_append, String.eqb_refl. cbn.
  apply Nat.leb_le. lia.
Qed.

(** The module name of an accepted file ends in [_agent]. *)
Lemma module_name_suffix (file : string) :
  AgentUI.endswith file "_agent.py" = true ->
  AgentUI.endswith (AgentUI.drop_last3 file) "_agent" = true.
Proof.
  intros H. destruct (endswith_split _ _ H) as [p ->].
  unfold AgentUI.drop_last3.
  change "_agent.py" with ("_agent" +:+ ".py").
  rewrite <- string_append_assoc.
  replace (String.length ((p +:+ "_agent") +:+ ".py") - 3)%nat
    with (String.length (p +:+ "_agent")).
  - rewrite substring_prefix_append. apply endswith_append.
  - rewrite (string_length_append (p +:+ "_agent") ".py"). cbn. lia.
Qed.

(** X6. Every id in the discovered dict is a file name of the listing
    without its [".py"]: the id followed by [".py"] is in the listing, and
    the id ends in [_agent].  So the id is the name under which the host
    later imports the module. *)
Theorem X6_discovered_ids_are_file_names
  (listdir : list string)
  (import_module : string -> outcome AgentUI.py_module)
  (key display_name : string) :
  (key, display_name) ∈ available_agents listdir import_module ->
  (key +:+ ".py") ∈ listdir
  /\ AgentUI.endswith key "_agent" = true
  /\ accepted_name import_module key = Some display_name.
Proof.
  rewrite available_agents_fold. intros Hin.
  assert (Hkey : key ∈ map fst
            (fold_left (discover_step import_module) listdir [])).
  { apply list_elem_of_fmap. exists (key, display_name). auto. }
  destruct (proj1 (discovered_keys import_module listdir [] key) Hkey)
    as [Hnil | (file & Hfile & Hends & -> & _)].
  { apply elem_of_nil in Hnil. contradiction. }
  split; [| split].
  - rewrite <- (agent_file_name file Hends). exact Hfile.
  - apply module_name_suffix, Hends.
  - destruct (discovered_entries import_module listdir [] _ _ Hin)
      as [Hnil | H]; [| exact H].
    apply elem_of_nil in Hnil. contradiction.
Qed.

Lemma X6_witness :
  ("crewai_agent.py") ∈ sample_listing
  /\ AgentUI.endswith "crewai_agent" "_agent" = true
  /\ accepted_name sample_import "crewai_agent" = Some "CrewAI Agent".
Proof.
  assert (Hin : ("crewai_agent", "CrewAI Agent")
                ∈ available_agents sample_listing sample_import).
  { apply list_elem_of_further, list_elem_of_here. }
  exact (X6_discovered_ids_are_file_names sample_listing sample_import
           "crewai_agent" "CrewAI Agent" Hin).
Defined.

(** X7. When discovery keeps no candidate, a run of the script shows the
    warning and stops there: the session is left as it was, and neither a
    submitted message nor a click on Clear Chat is acted on. *)
Theorem X7_no_agents_warns_and_stops
  (listdir : list string)
  (import_module : string -> outcome AgentUI.py_module)
  (held : string) (user_input : option string) (clear_clicked : bool)
  (s : run_state AgentUI.host) :
  available_agents listdir import_module = [] ->
  exists out,
    AgentUI.script listdir import_module held user_input clear_clicked s
    = (Returns tt,
       RunState
         (AgentUI.Host (AgentUI.session (self s))
            [AgentUI.Warning
               "No agents found. Please add an *_agent.py module."])
         out).
Proof.
  rewrite available_agents_fold. intros Hnone.
  destruct (load_candidates_fold import_module listdir []
              (RunState (AgentUI.Host (AgentUI.session (self s)) [])
                 (stdout s))) as [out Hrun].
  exists out.
  unfold AgentUI.script, AgentUI.get_available_agents.
  unfold bind at 1. cbn [get_self self stdout].
  unfold bind at 1. cbn [set_self self stdout AgentUI.session].
  unfold bind at 1. rewrite Hrun, Hnone. reflexivity.
Qed.

Lemma X7_witness :
  exists out,
    AgentUI.script ["broken_agent.py"; "notes.txt"] sample_import
      "broken_agent" (Some "hi") true
      (RunState (AgentUI.Host sample_session []) [])
    = (Returns tt,
       RunState
         (AgentUI.Host sample_session
            [AgentUI.Warning
               "No agents found. Please add an *_agent.py module."])
         out).
Proof.
  exact (X7_no_agents_warns_and_stops ["broken_agent.py"; "notes.txt"]
           sample_import "broken_agent" (Some "hi") true
           (RunState (AgentUI.Host sample_session []) []) eq_refl).
Defined.

(** ** The host with an adapter of the repository *)


(** ** What the adapters keep of a turn *)

Lemma well_paired_append (history : list turn) (message response : string) :
  (well_paired history = true ->
   well_paired (history ++ [Turn "user" message; Turn "assistant" response])
   = true)
  /\ (forall first,
        well_paired (first :: history) = true ->
        well_paired (first :: history
                     ++ [Turn "user" message; Turn "assistant" response])
        = true).
Proof.
  induction history as [| second rest [IH1 IH2]].
  - split; [reflexivity | intros first H; discriminate H].
  - split; [apply IH2 |].
    intros first H. cbn [well_paired app] in *.
    apply andb_true_iff in H as [Hroles Hrest].
    rewrite Hroles, (IH1 Hrest). reflexivity.
Qed.

(** X9. In the CrewAI adapter the stored history is always made of
    complete pairs, a user's entry followed by the assistant's: whatever
    calls were made and whichever of them failed.  (A failed turn stores
    nothing, a successful one stores both entries.) *)
Theorem X9_crewai_history_is_paired (P : providers)
  (s : run_state (a_state (adapter_of P Crewai))) :
  reachable (adapter_of P Crewai) s ->
  well_paired (CrewAI._messages (self s)) = true.
Proof.
  induction 1 as [out | s message _ IH | s _ IH].
  - reflexivity.
  - cbn [adapter_of a_chat a_state] in *. destruct s as [[nm h] out].
    unfold CrewAI.chat. py_unfold. cbn in *.
    destruct (crew_kickoff P message h) as [response | e]; cbn.
    + apply well_paired_append, IH.
    + exact IH.
  - reflexivity.
Qed.

Lemma X9_witness :
  well_paired
    (CrewAI._messages
       (self (after (adapter_of sample_providers Crewai)
                [Chat "hi"; Chat "and then?"]
                (RunState (a_init (adapter_of sample_providers Crewai)) []))))
  = true.
Proof.
  exact (X9_crewai_history_is_paired sample_providers _
           (reach_chat _ _ "and then?"
              (reach_chat _ _ "hi" (reach_init _ [])))).
Defined.

(** X10. In the OpenAI Agents SDK adapter a turn that fails leaves the
    user's message in the history without an answer, so the next turn
    sends it again, before its own message; when that turn succeeds the
    history holds both messages and one answer. *)
Theorem X10_agents_sdk_failed_message_is_sent_again
  (run_sync : list turn -> outcome string)
  (s : run_state OpenAIAgentsSDK.state) (first second response : string)
  (e : exn) :
  run_sync (OpenAIAgentsSDK.conversation_history (self s)
            ++ [Turn "user" first]) = Raises e ->
  run_sync (OpenAIAgentsSDK.conversation_history (self s)
            ++ [Turn "user" first; Turn "user" second]) = Returns response ->
  fst (OpenAIAgentsSDK.chat run_sync first s)
  = Returns OpenAIAgentsSDK.chat_failed
  /\ fst (OpenAIAgentsSDK.chat run_sync second
            (snd (OpenAIAgentsSDK.chat run_sync first s)))
     = Returns response
  /\ OpenAIAgentsSDK.conversation_history
       (self (snd (OpenAIAgentsSDK.chat run_sync second
                     (snd (OpenAIAgentsSDK.chat run_sync first s)))))
     = OpenAIAgentsSDK.conversation_history (self s)
       ++ [Turn "user" first; Turn "user" second; Turn "assistant" response].
Proof.
  intros Hfail Hok. destruct s as [[nm md h] out]. cbn in *.
  unfold OpenAIAgentsSDK.chat, OpenAIAgentsSDK.append_history.
  py_unfold. cbn. rewrite Hfail. cbn.
  rewrite <- app_assoc. cbn. rewrite Hok. cbn.
  rewrite <- app_assoc. auto.
Qed.

Lemma X10_witness :
  fst (OpenAIAgentsSDK.chat
         (fun h => match h with
                   | [_] => Raises (Exn OtherException "rate limit")
                   | _ => Returns "fine"
                   end)
         "one" (RunState OpenAIAgentsSDK.init []))
  = Returns OpenAIAgentsSDK.chat_failed
  /\ fst (OpenAIAgentsSDK.chat
            (fun h => match h with
                      | [_] => Raises (Exn OtherException "rate limit")
                      | _ => Returns "fine"
                      end)
            "two"
            (snd (OpenAIAgentsSDK.chat
                    (fun h => match h with
                              | [_] => Raises (Exn OtherException "rate limit")
                              | _ => Returns "fine"
                              end)
                    "one" (RunState OpenAIAgentsSDK.init []))))
     = Returns "fine"
  /\ OpenAIAgentsSDK.conversation_history
       (self (snd (OpenAIAgentsSDK.chat
                     (fun h => match h with
                               | [_] => Raises (Exn OtherException "rate limit")
                               | _ => Returns "fine"
                               end)
                     "two"
                     (snd (OpenAIAgentsSDK.chat
                             (fun h => match h with
                                       | [_] =>
                                           Raises (Exn OtherException "rate limit")
                                       | _ => Returns "fine"
                                       end)
                             "one" (RunState OpenAIAgentsSDK.init []))))))
     = [Turn "user" "one"; Turn "user" "two"; Turn "assistant" "fine"].
Proof.
  exact (X10_agents_sdk_failed_message_is_sent_again
           (fun h => match h with
                     | [_] => Raises (Exn OtherException "rate limit")
                     | _ => Returns "fine"
                     end)
           (RunState OpenAIAgentsSDK.init []) "one" "two" "fine"
           (Exn OtherException "rate limit") eq_refl eq_refl).
Defined.

(** ** Tool calls of the OpenAI Responses adapter *)

Section ResponsesTools.

Variable tavily_search : json -> outcome (list (string * json)).
Variable py_str_other : json -> string.
Variable today : date.
Variable json_loads : string -> option json.
Variable responses_create :
  OpenAIResponses.request -> outcome OpenAIResponses.response.

Lemma run_tool_calls_ids (items : list OpenAIResponses.output_item) :
  forall (s s' : run_state OpenAIResponses.state)
         (results : list OpenAIResponses.input_item),
  OpenAIResponses.run_tool_calls tavily_search py_str_other today json_loads
    items s = (Returns results, s') ->
  map call_id_of results
  = map (fun item => Some (OpenAIResponses.oi_call_id item))
      (List.filter OpenAIResponses.is_function_call items).
Proof.
  induction items as [| item rest IH]; intros s s' results;
    cbn [OpenAIResponses.run_tool_calls List.filter].
  - unfold ret. intros [= <- _]. reflexivity.
  - destruct (OpenAIResponses.is_function_call item); [| apply IH].
    unfold bind, ret.
    destruct (OpenAIResponses._call_tool _ _ _ _ _ s) as [[result | e] s1];
      [| discriminate].
    destruct (OpenAIResponses.run_tool_calls _ _ _ _ rest s1)
      as [[more | e] s2] eqn:E; [| discriminate].
    intros [= <- _]. cbn [map call_id_of]. f_equal. exact (IH _ _ _ E).
Qed.

(** What [_process_response] returns when it returns. *)
Lemma process_response_result (r : OpenAIResponses.response)
  (input_items updated : list OpenAIResponses.input_item)
  (text new_id : string) (s s' : run_state OpenAIResponses.state) :
  OpenAIResponses._process_response tavily_search py_str_other today
    json_loads responses_create r input_items s
  = (Returns (text, new_id, updated), s') ->
  self s' = self s
  /\ ((existsb OpenAIResponses.is_function_call (OpenAIResponses.output r)
       = false
       /\ text = OpenAIResponses.text_of r /\ new_id = OpenAIResponses.id r
       /\ updated = input_items /\ s' = s)
      \/ (exists results follow_up,
            existsb OpenAIResponses.is_function_call (OpenAIResponses.output r)
            = true
            /\ responses_create
                 (OpenAIResponses.Request results
                    (Some (OpenAIResponses.id r))) = Returns follow_up
            /\ map call_id_of results
               = map (fun item => Some (OpenAIResponses.oi_call_id item))
                   (List.filter OpenAIResponses.is_function_call
                      (OpenAIResponses.output r))
            /\ text = OpenAIResponses.text_of follow_up
            /\ new_id = OpenAIResponses.id follow_up
            /\ updated = input_items ++ results)).
Proof.
  intros H.
  split.
  { pose proof (proj1 (detached_process_response tavily_search py_str_other
                         today json_loads responses_create r input_items) s)
      as Hself.
    rewrite H in Hself. exact Hself. }
  unfold OpenAIResponses._process_response in H.
  destruct (existsb OpenAIResponses.is_function_call
              (OpenAIResponses.output r)) eqn:Hcalls; cbn [negb] in H.
  - right. unfold bind, ret, call in H.
    destruct (OpenAIResponses.run_tool_calls _ _ _ _ _ s)
      as [[results | e] s1] eqn:E; [| discriminate].
    destruct (responses_create _) as [follow_up | e] eqn:Ec; [| discriminate].
    injection H as <- <- <- <-.
    exists results, follow_up. repeat split; auto.
    exact (run_tool_calls_ids _ _ _ _ E).
  - left. unfold ret in H. injection H as <- <- <- <-. auto.
Qed.

(** X11. When [_process_response] returns: if the response holds no
    function call, its text and id are returned, the input items are
    untouched and nothing else is done; otherwise exactly one follow-up
    request was made, on top of that response, carrying one tool result
    per function call, in order and under the same call ids (the other
    output items give none), and the text and the id returned are the
    follow-up's.  The adapter's own attributes are not touched. *)
Theorem X11_one_tool_result_per_function_call
  (r : OpenAIResponses.response)
  (input_items updated : list OpenAIResponses.input_item)
  (text new_id : string) (s s' : run_state OpenAIResponses.state) :
  OpenAIResponses._process_response tavily_search py_str_other today
    json_loads responses_create r input_items s
  = (Returns (text, new_id, updated), s') ->
  self s' = self s
  /\ ((existsb OpenAIResponses.is_function_call (OpenAIResponses.output r)
       = false
       /\ text = OpenAIResponses.text_of r /\ new_id = OpenAIResponses.id r
       /\ updated = input_items /\ s' = s)
      \/ (exists results follow_up,
            existsb OpenAIResponses.is_function_call (OpenAIResponses.output r)
            = true
            /\ responses_create
                 (OpenAIResponses.Request results
                    (Some (OpenAIResponses.id r))) = Returns follow_up
            /\ map call_id_of results
               = map (fun item => Some (OpenAIResponses.oi_call_id item))
                   (List.filter OpenAIResponses.is_function_call
                      (OpenAIResponses.output r))
            /\ text = OpenAIResponses.text_of follow_up
            /\ new_id = OpenAIResponses.id follow_up
            /\ updated = input_items ++ results)).
Proof. apply process_response_result. Qed.


End ResponsesTools.

Lemma X11_witness :
  OpenAIResponses._process_response sample_search (fun _ => "")
    (Date 2025 3 7) (fun _ => None) sample_create
    (OpenAIResponses.Response "resp_1"
       [OpenAIResponses.OutputItem None "" "" ""; sample_tool_call] None)
    [OpenAIResponses.UserMessage "what day is it?"]
    (RunState OpenAIResponses.init [])
  = (Returns ("It is March.", "resp_2",
              [OpenAIResponses.UserMessage "what day is it?";
               OpenAIResponses.FunctionCallOutput "call_1" "March 07, 2025"]),
     RunState OpenAIResponses.init [])
  /\ self (RunState OpenAIResponses.init []) = OpenAIResponses.init.
Proof.
  split; [reflexivity |].
  exact (proj1 (X11_one_tool_result_per_function_call sample_search
                  (fun _ => "") (Date 2025 3 7) (fun _ => None) sample_create
                  (OpenAIResponses.Response "resp_1"
                     [OpenAIResponses.OutputItem None "" "" "";
                      sample_tool_call] None)
                  [OpenAIResponses.UserMessage "what day is it?"] _
                  "It is March." "resp_2"
                  (RunState OpenAIResponses.init [])
                  (RunState OpenAIResponses.init []) eq_refl)).
Defined.


(** X13. A turn of the OpenAI Responses adapter ends in one of two ways.
    Either it failed: the reply is the fixed text, one line starting with
    ["Error in chat: "] was printed last, and [previous_response_id] (as
    every attribute) is what it was, so the conversation goes on from
    where it stood.  Or it succeeded: the reply is the text of a response
    the provider returned, and [previous_response_id] is that response's
    id. *)
Theorem X13_failed_turn_keeps_previous_response_id
  (P : providers) (message : string) (s : run_state OpenAIResponses.state) :
  (fst (a_chat (adapter_of P OpenaiResponses) message s)
   = Returns OpenAIResponses.chat_failed
   /\ self (snd (a_chat (adapter_of P OpenaiResponses) message s)) = self s
   /\ exists e,
        last (stdout (snd (a_chat (adapter_of P OpenaiResponses) message s)))
        = Some ("Error in chat: " +:+ exn_str e))
  \/ (exists request r,
        responses_create P request = Returns r
        /\ fst (a_chat (adapter_of P OpenaiResponses) message s)
           = Returns (OpenAIResponses.text_of r)
        /\ self (snd (a_chat (adapter_of P OpenaiResponses) message s))
           = OpenAIResponses.State (OpenAIResponses.name (self s))
               (OpenAIResponses.model (self s))
               (Some (OpenAIResponses.id r))).
Proof.
  cbn [adapter_of a_chat a_state]. unfold OpenAIResponses.chat.
  set (first :=
         if OpenAIResponses.id_truthy
              (OpenAIResponses.previous_response_id (self s))
         then OpenAIResponses.Request [OpenAIResponses.UserMessage message]
                (OpenAIResponses.previous_response_id (self s))
         else OpenAIResponses.Request [OpenAIResponses.UserMessage message]
                None).
  assert (Hfirst :
    (if OpenAIResponses.id_truthy
          (OpenAIResponses.previous_response_id (self s))
     then @call OpenAIResponses.state _
            (responses_create P
               (OpenAIResponses.Request [OpenAIResponses.UserMessage message]
                  (OpenAIResponses.previous_response_id (self s))))
     else call (responses_create P
                  (OpenAIResponses.Request
                     [OpenAIResponses.UserMessage message] None)))
    = call (responses_create P first)).
  { unfold first.
    destruct (OpenAIResponses.id_truthy
                (OpenAIResponses.previous_response_id (self s)));
      reflexivity. }
  py_unfold. cbn [self stdout]. rewrite Hfirst. unfold call.
  destruct (responses_create P first) as [r | e] eqn:Hcreate;
    cbn [fst snd self stdout].
  - destruct (OpenAIResponses._process_response _ _ _ _ _ r _ s)
      as [[[[text new_id] updated] | e] s1] eqn:Hproc; cbn [fst snd self stdout].
    + right.
      destruct (process_response_result _ _ _ _ _ _ _ _ _ _ _ _ Hproc)
        as (Hself & [(_ & -> & -> & _) | (results & r2 & _ & Hr2 & _ & -> & -> & _)]).
      * exists first, r. rewrite Hself. auto.
      * exists (OpenAIResponses.Request results (Some (OpenAIResponses.id r))),
          r2.
        rewrite Hself. auto.
    + left.
      pose proof (proj1 (detached_process_response (tavily_search P)
                           (py_str_other P) (today P) (json_loads P)
                           (responses_create P) r
                           [OpenAIResponses.UserMessage message]) s) as Hself.
      rewrite Hproc in Hself. cbn in Hself.
      repeat split; auto. exists e. apply last_snoc.
  - left. repeat split; auto. exists e. apply last_snoc.
Qed.

(** ** Threads of the LangGraph adapter *)

(** X14. The LangGraph adapter never deletes a checkpoint.  A turn changes
    the checkpoint of the current thread only and keeps the thread id;
    [clear_chat] returns [True], moves to the next thread id and leaves
    every checkpoint, the abandoned thread's included, in the saver. *)
Theorem X14_langgraph_threads_are_kept
  (graph_stream : list string -> string -> stream LangGraph.event * list string)
  (s : run_state LangGraph.state) (message : string) :
  (LangGraph.thread_id (self (snd (LangGraph.chat graph_stream message s)))
   = LangGraph.thread_id (self s)
   /\ forall t,
        t = LangGraph.thread_id (self s)
        \/ LangGraph.memory
             (self (snd (LangGraph.chat graph_stream message s))) !! t
           = LangGraph.memory (self s) !! t)
  /\ LangGraph.clear_chat s
     = (Returns true,
        RunState
          (LangGraph.State (LangGraph.name (self s))
             (LangGraph.thread_id (self s) + 1)
             (LangGraph.memory (self s)))
          (stdout s)).
Proof.
  destruct s as [[nm tid mem] out]. split; [| reflexivity].
  unfold LangGraph.chat. py_unfold. cbn.
  assert (Hother : forall v t,
            t = tid \/ <[tid := v]> mem !! t = mem !! t).
  { intros v t. destruct (decide (t = tid)) as [-> | Hne]; [auto |].
    right. apply lookup_insert_ne. congruence. }
  destruct (LangGraph.collect _ _); cbn;
    [destruct (stops_with _); cbn |]; auto.
Qed.

(** ** What the streaming adapters reply *)

(** The loop of the LangGraph [chat] raises exactly when a streamed state
    has an empty list of messages. *)
Lemma collect_returns (events : list LangGraph.event) :
  forall full_response,
  (forall ev, ev ∈ events -> LangGraph.messages ev = Some [] -> False) ->
  exists text, LangGraph.collect events full_response = Returns text.
Proof.
  induction events as [| ev rest IH]; intros acc Hok; cbn [LangGraph.collect].
  - eauto.
  - assert (Hrest : forall ev', ev' ∈ rest ->
                      LangGraph.messages ev' = Some [] -> False).
    { intros ev' Hin. apply Hok, list_elem_of_further, Hin. }
    destruct (LangGraph.messages ev) as [msgs |] eqn:Em; [| apply IH, Hrest].
    destruct (last msgs) as [m |] eqn:El; [apply IH, Hrest |].
    exfalso. apply (Hok ev); [apply list_elem_of_here |].
    rewrite Em. f_equal. apply last_None. exact El.
Qed.

Lemma collect_app (events more : list LangGraph.event) :
  forall full_response text,
  LangGraph.collect events full_response = Returns text ->
  LangGraph.collect (events ++ more) full_response
  = LangGraph.collect more text.
Proof.
  induction events as [| ev rest IH]; intros acc text;
    cbn [LangGraph.collect app].
  - intros [= ->]. reflexivity.
  - destruct (LangGraph.messages ev) as [msgs |]; [| apply IH].
    destruct (last msgs) as [m |]; [apply IH | discriminate].
Qed.

Lemma collect_raises (events : list LangGraph.event) (ev : LangGraph.event) :
  forall full_response,
  ev ∈ events -> LangGraph.messages ev = Some [] ->
  exists e, LangGraph.collect events full_response = Raises e.
Proof.
  induction events as [| first rest IH]; intros acc Hin Hempty.
  - apply elem_of_nil in Hin. contradiction.
  - cbn [LangGraph.collect].
    apply elem_of_cons in Hin as [<- | Hin].
    + rewrite Hempty. cbn. eauto.
    + destruct (LangGraph.messages first) as [msgs |]; [| apply IH; auto].
      destruct (last msgs) as [m |]; [apply IH; auto | eauto].
Qed.

(** X15. The reply of the LangGraph adapter is the content of the last
    message of the last state streamed: when the stream ends normally with
    a state whose last message has the content [c], and no earlier state
    had an empty list of messages, [chat] returns [c] and prints
    nothing. *)
Theorem X15_langgraph_reply_is_the_last_message
  (graph_stream : list string -> string -> stream LangGraph.event * list string)
  (s : run_state LangGraph.state) (message c : string)
  (events : list LangGraph.event) (msgs : list LangGraph.message)
  (checkpoint : list string) :
  graph_stream
    (default [] (LangGraph.memory (self s) !! LangGraph.thread_id (self s)))
    message
  = (Stream
       (events
        ++ [LangGraph.Event (Some (msgs ++ [LangGraph.Message (Some c)]))])
       None,
     checkpoint) ->
  (forall ev, ev ∈ events -> LangGraph.messages ev = Some [] -> False) ->
  fst (LangGraph.chat graph_stream message s) = Returns c
  /\ stdout (snd (LangGraph.chat graph_stream message s)) = stdout s.
Proof.
  intros Hrun Hok. destruct s as [[nm tid mem] out]. cbn in Hrun.
  unfold LangGraph.chat. py_unfold. cbn. rewrite Hrun. cbn.
  destruct (collect_returns events "" Hok) as [text Htext].
  rewrite (collect_app _ _ _ _ Htext). cbn. rewrite last_snoc. cbn.
  auto.
Qed.

Lemma X15_witness :
  fst (LangGraph.chat (graph_stream sample_providers) "hi"
         (RunState LangGraph.init []))
  = Returns "first: hi"
  /\ stdout (snd (LangGraph.chat (graph_stream sample_providers) "hi"
                    (RunState LangGraph.init [])))
     = [].
Proof.
  assert (Hok : forall ev : LangGraph.event,
            ev ∈ [] -> LangGraph.messages ev = Some [] -> False).
  { intros ev Hin. apply elem_of_nil in Hin. contradiction. }
  exact (X15_langgraph_reply_is_the_last_message
           (graph_stream sample_providers) (RunState LangGraph.init [])
           "hi" "first: hi" [] [] ["hi"] eq_refl Hok).
Defined.

(** X16. A streamed state with an empty list of messages makes the turn
    fail: [event["messages"][-1]] raises, and the LangGraph adapter
    answers with its fixed text, whatever else was streamed. *)
Theorem X16_langgraph_empty_messages_fail_the_turn
  (graph_stream : list string -> string -> stream LangGraph.event * list string)
  (s : run_state LangGraph.state) (message : string) (ev : LangGraph.event) :
  ev ∈ yielded
         (fst (graph_stream
                 (default []
                    (LangGraph.memory (self s) !! LangGraph.thread_id (self s)))
                 message)) ->
  LangGraph.messages ev = Some [] ->
  fst (LangGraph.chat graph_stream message s) = Returns LangGraph.chat_failed.
Proof.
  intros Hin Hempty. destruct s as [[nm tid mem] out]. cbn in Hin.
  unfold LangGraph.chat. py_unfold. cbn.
  destruct (collect_raises _ _ "" Hin Hempty) as [e ->]. reflexivity.
Qed.

Lemma X16_witness :
  fst (LangGraph.chat
         (fun _ _ =>
            (Stream [LangGraph.Event (Some [LangGraph.Message (Some "draft")]);
                     LangGraph.Event (Some [])]
               None, []))
         "hi" (RunState LangGraph.init []))
  = Returns LangGraph.chat_failed.
Proof.
  assert (Hin : LangGraph.Event (Some [])
                ∈ [LangGraph.Event (Some [LangGraph.Message (Some "draft")]);
                   LangGraph.Event (Some [])]).
  { apply list_elem_of_further, list_elem_of_here. }
  exact (X16_langgraph_empty_messages_fail_the_turn
           (fun _ _ =>
              (Stream [LangGraph.Event (Some [LangGraph.Message (Some "draft")]);
                       LangGraph.Event (Some [])]
                 None, []))
           (RunState LangGraph.init []) "hi" (LangGraph.Event (Some []))
           Hin eq_refl).
Defined.

Lemma str_truthy_append (a b : string) :
  str_truthy a = true -> str_truthy (a +:+ b) = true.
Proof. destruct a; [discriminate | reflexivity]. Qed.

(** X17. The Google ADK adapter never replies with the empty string: an
    empty result is replaced by ["Agent generated an empty response."],
    and a fault is answered with a text that starts with
    ["System Error: "]. *)
Theorem X17_google_adk_reply_is_never_empty
  (run_async : list string -> string -> stream GoogleADK.event * list string)
  (message : string) (s : run_state GoogleADK.state) :
  exists text s',
    GoogleADK.chat run_async message s = (Returns text, s')
    /\ str_truthy text = true.
Proof.
  unfold GoogleADK.chat, try_except, bind, ret.
  destruct (GoogleADK._run run_async message s) as [[result | e] s'].
  - exists (if str_truthy result then result else GoogleADK.empty_response), s'.
    split; [reflexivity |].
    destruct (str_truthy result) eqn:E; [exact E | reflexivity].
  - exists ("System Error: " +:+ exn_str e), s'.
    split; [reflexivity | apply str_truthy_append; reflexivity].
Qed.

Lemma fold_on_event_not_final (events : list GoogleADK.event) :
  forall response_text,
  (forall ev, ev ∈ events -> GoogleADK.is_final_response ev = Some true -> False) ->
  fold_left GoogleADK.on_event events response_text = response_text.
Proof.
  induction events as [| ev rest IH]; intros acc Hnone; [reflexivity |].
  cbn [fold_left].
  assert (Hev : GoogleADK.on_event acc ev = acc).
  { unfold GoogleADK.on_event.
    destruct (GoogleADK.is_final_response ev) as [[|] |] eqn:E;
      try reflexivity.
    exfalso. apply (Hnone ev); [apply list_elem_of_here | exact E]. }
  rewrite Hev. apply IH. intros ev' Hin. apply Hnone, list_elem_of_further, Hin.
Qed.

(** X18. When a run of the Google ADK agent ends normally without any
    event that is a final response, whatever texts its events carry, the
    reply is ["Agent generated an empty response."]. *)
Theorem X18_google_adk_no_final_response
  (run_async : list string -> string -> stream GoogleADK.event * list string)
  (message : string) (s : run_state GoogleADK.state)
  (stored : list string) :
  GoogleADK.sessions (self s) !! GoogleADK._session_id (self s) = Some stored ->
  stops_with (fst (run_async stored message)) = None ->
  (forall ev, ev ∈ yielded (fst (run_async stored message)) ->
              GoogleADK.is_final_response ev = Some true -> False) ->
  fst (GoogleADK.chat run_async message s)
  = Returns GoogleADK.empty_response.
Proof.
  intros Hsession Hstop Hnone. destruct s as [[nm uid sid sess draws] out].
  cbn in Hsession.
  unfold GoogleADK.chat, GoogleADK._run. py_unfold. cbn.
  rewrite Hsession. cbn. rewrite Hstop. cbn.
  rewrite (fold_on_event_not_final _ "" Hnone). reflexivity.
Qed.

Lemma X18_witness :
  fst (GoogleADK.chat
         (fun _ _ =>
            (Stream [GoogleADK.Event (Some false) (Some "thinking") None;
                     GoogleADK.Event None (Some "tool output") None]
               None, []))
         "hi" (RunState GoogleADK.init []))
  = Returns GoogleADK.empty_response.
Proof.
  assert (Hnone : forall ev : GoogleADK.event,
            ev ∈ [GoogleADK.Event (Some false) (Some "thinking") None;
                  GoogleADK.Event None (Some "tool output") None] ->
            GoogleADK.is_final_response ev = Some true -> False).
  { intros ev Hin Hfinal.
    apply elem_of_cons in Hin as [-> | Hin]; [discriminate Hfinal |].
    apply elem_of_cons in Hin as [-> | Hin]; [discriminate Hfinal |].
    apply elem_of_nil in Hin. exact Hin. }
  exact (X18_google_adk_no_final_response
           (fun _ _ =>
              (Stream [GoogleADK.Event (Some false) (Some "thinking") None;
                       GoogleADK.Event None (Some "tool output") None]
                 None, []))
           "hi" (RunState GoogleADK.init []) [] eq_refl eq_refl Hnone).
Defined.

(** ** The event-loop fallback of the Llama-Index adapter *)



(** X20. Any other exception of [asyncio.run] is not retried: when its
    class is not [RuntimeError], or its text does not hold the nested-loop
    message, the Llama-Index adapter answers with its fixed text and the
    outcome does not depend on what [loop.run_until_complete] would do. *)
Theorem X20_llama_index_other_faults_are_not_retried
  (asyncio_run loop1 loop2 :
     list string -> string -> outcome string * list string)
  (s : run_state LlamaIndex.state) (message : string) (e : exn)
  (memory1 : list string) :
  asyncio_run (LlamaIndex.memory (self s)) message = (Raises e, memory1) ->
  exn_class_eqb (exn_cls e) RuntimeError = false
  \/ str_contains LlamaIndex.nested_loop_message (exn_str e) = false ->
  LlamaIndex.chat asyncio_run loop1 message s
  = (Returns LlamaIndex.chat_failed,
     RunState (LlamaIndex.State (LlamaIndex.name (self s)) memory1)
       (stdout s ++ ["Error in chat: " +:+ exn_str e]))
  /\ LlamaIndex.chat asyncio_run loop2 message s
     = LlamaIndex.chat asyncio_run loop1 message s.
Proof.
  intros Hrun Hother. destruct s as [[nm mem] out]. cbn in Hrun.
  unfold LlamaIndex.chat, LlamaIndex.run_with. py_unfold. cbn.
  rewrite Hrun. cbn.
  destruct Hother as [-> | Htext]; [auto |].
  destruct (exn_class_eqb (exn_cls e) RuntimeError); [| auto].
  rewrite Htext. auto.
Qed.

Lemma X20_witness :
  LlamaIndex.chat
    (fun memory _ => (Raises (Exn RuntimeError "Event loop is closed"), memory))
    (fun memory _ => (Returns "unused", memory))
    "hi" (RunState LlamaIndex.init [])
  = (Returns LlamaIndex.chat_failed,
     RunState LlamaIndex.init ["Error in chat: Event loop is closed"]).
Proof.
  exact (proj1 (X20_llama_index_other_faults_are_not_retried
                  (fun memory _ =>
                     (Raises (Exn RuntimeError "Event loop is closed"), memory))
                  (fun memory _ => (Returns "unused", memory))
                  (fun memory _ => (Returns "unused", memory))
                  (RunState LlamaIndex.init []) "hi"
                  (Exn RuntimeError "Event loop is closed") []
                  eq_refl (or_intror eq_refl))).
Defined.

(** ** Reading the date back *)

(** X21. The text of [date_tool] determines the date: read back (month by
    its name, day and year by their digits) it gives the date it was made
    from, so two different dates never give the same text. *)
Theorem X21_date_tool_reads_back (today : date) :
  date_in_range today ->
  parse_date (date_tool today) = Some today.
Proof.
  intros (Hy & Hm & Hd). destruct today as [y m d]. cbn [year month day] in *.
  assert (Hc : m = 1 \/ m = 2 \/ m = 3 \/ m = 4 \/ m = 5 \/ m = 6 \/ m = 7
               \/ m = 8 \/ m = 9 \/ m = 10 \/ m = 11 \/ m = 12) by lia.
  assert (Hday : 10 * digit_value (digit_char (d / 10))
                 + digit_value (digit_char d) = d).
  { rewrite !digit_char_value. Z.to_euclidean_division_equations. lia. }
  assert (Hyear : 1000 * digit_value (digit_char (y / 1000))
                  + 100 * digit_value (digit_char (y / 100))
                  + 10 * digit_value (digit_char (y / 10))
                  + digit_value (digit_char y) = y).
  { rewrite !digit_char_value. Z.to_euclidean_division_equations. lia. }
  rewrite date_tool_unfold. unfold directive_B, directive_d, directive_Y.
  cbn [month day year].
  repeat (destruct Hc as [-> | Hc];
          [vm_compute (nth _ month_names ""); unfold parse_date;
           cbv [String.append];
           cbn -[is_digit digit_char digit_value Z.mul Z.add];
           rewrite !digit_char_is_digit; cbn [andb];
           rewrite Hday, Hyear; reflexivity |]).
  subst. vm_compute (nth _ month_names ""). unfold parse_date.
  cbv [String.append].
  cbn -[is_digit digit_char digit_value Z.mul Z.add].
  rewrite !digit_char_is_digit. cbn [andb].
  rewrite Hday, Hyear. reflexivity.
Qed.

Lemma X21_witness :
  parse_date (date_tool (Date 2025 3 7)) = Some (Date 2025 3 7).
Proof.
  assert (Hrange : date_in_range (Date 2025 3 7)).
  { unfold date_in_range. cbn. lia. }
  exact (X21_date_tool_reads_back (Date 2025 3 7) Hrange).
Defined.

(** ** Edge cases of the web search *)

Lemma dict_get_missing (d : list (string * json)) (key : string) (default : json) :
  key ∉ map fst d -> dict_get d key default = default.
Proof.
  induction d as [| [k v] rest IH]; intros Hmiss; [reflexivity |].
  cbn [dict_get]. destruct (String.eqb k key) eqn:E.
  - apply String.eqb_eq in E. subst. exfalso. apply Hmiss.
    apply list_elem_of_here.
  - apply IH. intros Hin. apply Hmiss. apply list_elem_of_further, Hin.
Qed.

(** X22. When the provider's response has no ["results"] entry,
    [web_search] does not fail: it returns the text of the empty JSON
    array, and prints it after the line with the query. *)
Theorem X22_web_search_without_results_key {Self : Type}
  (tavily_search : json -> outcome (list (string * json)))
  (py_str_other : json -> string) (query : string)
  (search_response : list (string * json)) (s : run_state Self) :
  tavily_search (JStr query) = Returns search_response ->
  "results" ∉ map fst search_response ->
  web_search tavily_search py_str_other (JStr query) s
  = (Returns "[]",
     RunState (self s)
       (stdout s ++ ["Web Search Results for '" +:+ query +:+ "':"; "[]"])).
Proof.
  intros Hsearch Hmiss. unfold web_search. py_unfold.
  rewrite Hsearch, (dict_get_missing _ _ _ Hmiss). cbn.
  rewrite <- app_assoc. reflexivity.
Qed.

Lemma X22_witness :
  web_search (fun q => Returns [("query", q); ("answer", JNull)])
    (fun _ => "") (JStr "rocq") (RunState tt [])
  = (Returns "[]", RunState tt ["Web Search Results for 'rocq':"; "[]"]).
Proof.
  assert (Hmiss : "results" ∉ map fst [("query", JStr "rocq"); ("answer", JNull)]).
  { intros H.
    repeat (apply elem_of_cons in H as [H | H]; [discriminate H |]).
    apply elem_of_nil in H. exact H. }
  exact (X22_web_search_without_results_key
           (fun q => Returns [("query", q); ("answer", JNull)])
           (fun _ => "") "rocq" _ (RunState tt []) eq_refl Hmiss).
Defined.

Lemma run_tool_calls_cons_call
  (tavily_search : json -> outcome (list (string * json)))
  (py_str_other : json -> string) (today : date)
  (json_loads : string -> option json)
  (skipped : list OpenAIResponses.output_item) :
  forall (item : OpenAIResponses.output_item)
         (rest : list OpenAIResponses.output_item)
         (s : run_state OpenAIResponses.state),
  forallb (fun i => negb (OpenAIResponses.is_function_call i)) skipped = true ->
  OpenAIResponses.is_function_call item = true ->
  OpenAIResponses.run_tool_calls tavily_search py_str_other today json_loads
    (skipped ++ item :: rest) s
  = (let! result :=
       OpenAIResponses._call_tool tavily_search py_str_other today
         (OpenAIResponses.oi_name item)
         (OpenAIResponses.function_args json_loads item) in
     let! more :=
       OpenAIResponses.run_tool_calls tavily_search py_str_other today
         json_loads rest in
     ret (OpenAIResponses.FunctionCallOutput
            (OpenAIResponses.oi_call_id item) result :: more)) s.
Proof.
  induction skipped as [| first skipped IH]; intros item rest s Hskip Hcall;
    cbn [app OpenAIResponses.run_tool_calls].
  - rewrite Hcall. reflexivity.
  - cbn [forallb] in Hskip. apply andb_true_iff in Hskip as [Hfirst Hskip].
    apply negb_true_iff in Hfirst. rewrite Hfirst. apply IH; assumption.
Qed.

(** X23. In the OpenAI Responses adapter a search that fails inside a tool
    call fails the whole turn: when the first function call of the
    response is a [web_search] whose provider raises, no tool result and
    no follow-up request is made, the reply is the fixed text, the error
    is printed and [previous_response_id] stays as it was. *)
Theorem X23_failed_search_fails_the_turn
  (P : providers) (message : string) (s : run_state OpenAIResponses.state)
  (r : OpenAIResponses.response)
  (skipped rest : list OpenAIResponses.output_item)
  (item : OpenAIResponses.output_item) (arguments : list (string * json))
  (e : exn) :
  responses_create P
    (if OpenAIResponses.id_truthy
          (OpenAIResponses.previous_response_id (self s))
     then OpenAIResponses.Request [OpenAIResponses.UserMessage message]
            (OpenAIResponses.previous_response_id (self s))
     else OpenAIResponses.Request [OpenAIResponses.UserMessage message] None)
  = Returns r ->
  OpenAIResponses.output r = skipped ++ item :: rest ->
  forallb (fun i => negb (OpenAIResponses.is_function_call i)) skipped = true ->
  OpenAIResponses.is_function_call item = true ->
  OpenAIResponses.oi_name item = "web_search" ->
  OpenAIResponses.function_args (json_loads P) item = JDict arguments ->
  tavily_search P (dict_get arguments "query" (JStr "")) = Raises e ->
  a_chat (adapter_of P OpenaiResponses) message s
  = (Returns OpenAIResponses.chat_failed,
     RunState (self s) (stdout s ++ ["Error in chat: " +:+ exn_str e])).
Proof.
  intros Hcreate Hout Hskip Hcall Hname Hargs Hsearch.
  cbn [adapter_of a_chat a_state]. unfold OpenAIResponses.chat.
  assert (Hfirst :
    (if OpenAIResponses.id_truthy
          (OpenAIResponses.previous_response_id (self s))
     then @call OpenAIResponses.state _
            (responses_create P
               (OpenAIResponses.Request [OpenAIResponses.UserMessage message]
                  (OpenAIResponses.previous_response_id (self s))))
     else call (responses_create P
                  (OpenAIResponses.Request
                     [OpenAIResponses.UserMessage message] None)))
    = call (Returns r)).
  { rewrite <- Hcreate.
    destruct (OpenAIResponses.id_truthy
                (OpenAIResponses.previous_response_id (self s)));
      reflexivity. }
  assert (Hproc :
    OpenAIResponses._process_response (tavily_search P) (py_str_other P)
      (today P) (json_loads P) (responses_create P) r
      [OpenAIResponses.UserMessage message] s
    = (Raises e, s)).
  { unfold OpenAIResponses._process_response.
    replace (existsb OpenAIResponses.is_function_call
               (OpenAIResponses.output r)) with true.
    2: { symmetry. apply existsb_exists. exists item. split; [| exact Hcall].
         rewrite Hout. apply in_or_app. right. left. reflexivity. }
    cbn [negb]. unfold bind at 1.
    rewrite Hout, (run_tool_calls_cons_call _ _ _ _ _ _ _ _ Hskip Hcall).
    unfold bind at 1. rewrite Hname, Hargs.
    unfold OpenAIResponses._call_tool. cbn [String.eqb Ascii.eqb Bool.eqb].
    unfold web_search, bind, call. rewrite Hsearch. reflexivity. }
  unfold try_except, bind at 1. unfold get_self at 1. cbn [self].
  unfold bind at 1. rewrite Hfirst. unfold call at 1.
  unfold bind at 1. rewrite Hproc.
  destruct s as [me out]. reflexivity.
Qed.

Lemma X23_witness :
  a_chat (adapter_of search_down_providers OpenaiResponses) "find rocq"
    (RunState OpenAIResponses.init [])
  = (Returns OpenAIResponses.chat_failed,
     RunState OpenAIResponses.init
       ["Error in chat: 503 Service Unavailable"]).
Proof.
  exact (X23_failed_search_fails_the_turn search_down_providers "find rocq"
           (RunState OpenAIResponses.init [])
           (OpenAIResponses.Response "resp_1" [search_call] None)
           [] [] search_call [("query", JStr "rocq")]
           (Exn OtherException "503 Service Unavailable")
           eq_refl eq_refl eq_refl eq_refl eq_refl eq_refl eq_refl).
Defined.

(** ** The console loops *)

Lemma same_conversation_refl (P : providers) (b : backend)
  (x : a_state (adapter_of P b)) : same_conversation P b x x.
Proof. destruct b; reflexivity. Qed.

Lemma main_loop_answers (P : providers) (b : backend) (queries : list string) :
  forall (tail : list string) (s1 s2 : run_state (a_state (adapter_of P b))),
  well_formed P b (self s1) -> well_formed P b (self s2) ->
  same_conversation P b (self s1) (self s2) ->
  (forall q, q ∈ queries -> is_exit (exit_words b) q = false) ->
  exists s1',
    main_loop (adapter_of P b) (exit_words b) (queries ++ tail) s1
    = main_loop (adapter_of P b) (exit_words b) tail s1'
    /\ well_formed P b (self s1')
    /\ well_formed P b
         (self (after (adapter_of P b) (map Chat queries) s2))
    /\ same_conversation P b (self s1')
         (self (after (adapter_of P b) (map Chat queries) s2)).
Proof.
  induction queries as [| q queries IH]; intros tail s1 s2 W1 W2 Hsim Hgo.
  - exists s1. cbn. auto.
  - cbn [app map after main_loop].
    assert (Hq : is_exit (exit_words b) q = false).
    { apply Hgo, list_elem_of_here. }
    set (s1p := RunState (self s1) (stdout s1 ++ ["You: "])).
    destruct (chat_returns P b q s1p) as (response & s1c & Hchat).
    destruct (chat_same_conversation P b q s1p s2 Hsim) as [_ Hnext].
    pose proof (well_formed_chat P b q s1p W1) as W1c.
    rewrite Hchat in Hnext, W1c. cbn [snd] in Hnext, W1c.
    destruct (IH tail
                (RunState (self s1c)
                   (stdout s1c ++ ["Assistant: " +:+ response]))
                (snd (a_chat (adapter_of P b) q s2)))
      as (s1' & Hloop & W1' & W2' & Hsim').
    + exact W1c.
    + apply well_formed_chat, W2.
    + exact Hnext.
    + intros q' Hin. apply Hgo, list_elem_of_further, Hin.
    + exists s1'. split; [| auto].
      rewrite <- Hloop. unfold bind at 1. unfold print at 1.
      fold s1p. rewrite Hq. unfold bind at 1. rewrite Hchat.
      reflexivity.
Qed.

(** X24. The console loop of an adapter file answers every line typed
    before the first exit word (compared in lower case) and stops there:
    it returns normally, the lines after the exit word are left unread,
    and the agent has had exactly the conversation that [chat] on those
    lines, in order, leads to (from then on it answers any calls as after
    them). *)
Theorem X24_main_stops_at_the_first_exit_word
  (P : providers) (b : backend) (queries : list string) (word : string)
  (unread : list string) (s : run_state (a_state (adapter_of P b))) :
  reachable (adapter_of P b) s ->
  (forall q, q ∈ queries -> is_exit (exit_words b) q = false) ->
  is_exit (exit_words b) word = true ->
  exists s',
    main_loop (adapter_of P b) (exit_words b) (queries ++ word :: unread) s
    = (Returns unread, s')
    /\ forall ops : list op,
         answers (adapter_of P b) ops s'
         = answers (adapter_of P b) ops
             (after (adapter_of P b) (map Chat queries) s).
Proof.
  intros Hreach Hgo Hstop.
  pose proof (reachable_well_formed P b s Hreach) as W.
  destruct (main_loop_answers P b queries (word :: unread) s s W W
              (same_conversation_refl P b (self s)) Hgo)
    as (s1 & Hloop & W1 & W2 & Hsim).
  exists (RunState (self s1) (stdout s1 ++ ["You: "])). split.
  - rewrite Hloop. cbn [main_loop]. unfold bind, print. rewrite Hstop.
    reflexivity.
  - intros ops. apply answers_same_conversation; assumption.
Qed.

Lemma X24_witness :
  exists s',
    main sample_providers Smolagents ["Hi"; "and then?"; "QUIT"; "later"]
    = (Returns ["later"], s')
    /\ forall ops : list op,
         answers (adapter_of sample_providers Smolagents) ops s'
         = answers (adapter_of sample_providers Smolagents) ops
             (after (adapter_of sample_providers Smolagents)
                [Chat "Hi"; Chat "and then?"]
                (RunState (a_init (adapter_of sample_providers Smolagents))
                   [])).
Proof.
  assert (Hgo : forall q, q ∈ ["Hi"; "and then?"] ->
                  is_exit (exit_words Smolagents) q = false).
  { intros q Hin.
    apply elem_of_cons in Hin as [-> | Hin]; [reflexivity |].
    apply elem_of_cons in Hin as [-> | Hin]; [reflexivity |].
    apply elem_of_nil in Hin. contradiction. }
  exact (X24_main_stops_at_the_first_exit_word sample_providers Smolagents
           ["Hi"; "and then?"] "QUIT" ["later"] _ (reach_init _ []) Hgo
           eq_refl).
Defined.

(** X25. When the input ends before any exit word, the console loop has
    answered every line and then ends with the [EOFError] of [input],
    which [main] does not catch. *)
Theorem X25_main_ends_with_eof_without_exit_word
  (P : providers) (b : backend) (queries : list string)
  (s : run_state (a_state (adapter_of P b))) :
  reachable (adapter_of P b) s ->
  (forall q, q ∈ queries -> is_exit (exit_words b) q = false) ->
  exists s',
    main_loop (adapter_of P b) (exit_words b) queries s
    = (Raises (Exn OtherException "EOF when reading a line"), s')
    /\ forall ops : list op,
         answers (adapter_of P b) ops s'
         = answers (adapter_of P b) ops
             (after (adapter_of P b) (map Chat queries) s).
Proof.
  intros Hreach Hgo.
  pose proof (reachable_well_formed P b s Hreach) as W.
  destruct (main_loop_answers P b queries [] s s W W
              (same_conversation_refl P b (self s)) Hgo)
    as (s1 & Hloop & W1 & W2 & Hsim).
  rewrite app_nil_r in Hloop.
  exists (RunState (self s1) (stdout s1 ++ ["You: "])). split.
  - rewrite Hloop. reflexivity.
  - intros ops. apply answers_same_conversation; assumption.
Qed.

Lemma X25_witness :
  exists s',
    main sample_providers Langgraph ["Hi"]
    = (Raises (Exn OtherException "EOF when reading a line"), s')
    /\ forall ops : list op,
         answers (adapter_of sample_providers Langgraph) ops s'
         = answers (adapter_of sample_providers Langgraph) ops
             (after (adapter_of sample_providers Langgraph) [Chat "Hi"]
                (RunState (a_init (adapter_of sample_providers Langgraph)) [])).
Proof.
  assert (Hgo : forall q, q ∈ ["Hi"] ->
                  is_exit (exit_words Langgraph) q = false).
  { intros q Hin.
    apply elem_of_cons in Hin as [-> | Hin]; [reflexivity |].
    apply elem_of_nil in Hin. contradiction. }
  exact (X25_main_ends_with_eof_without_exit_word sample_providers Langgraph
           ["Hi"] _ (reach_init _ []) Hgo).
Defined.

(** X26. The word [quit], in any letter case, ends the console loop of six
    adapter files without reaching the agent; the loop of crewai_agent.py
    knows [exit] only, and sends [quit] to the agent as a message like any
    other. *)
Theorem X26_quit_ends_every_loop_but_crewai
  (P : providers) (query : string) (lines : list string) :
  str_lower query = "quit" ->
  (forall (b : backend) (s : run_state (a_state (adapter_of P b))),
     b = Crewai
     \/ main_loop (adapter_of P b) (exit_words b) (query :: lines) s
        = (Returns lines, RunState (self s) (stdout s ++ ["You: "])))
  /\ (forall (s : run_state CrewAI.state) (response : string),
        crew_kickoff P query (CrewAI._messages (self s)) = Returns response ->
        main_loop (adapter_of P Crewai) (exit_words Crewai) (query :: lines) s
        = main_loop (adapter_of P Crewai) (exit_words Crewai) lines
            (RunState
               (CrewAI.State (CrewAI.name (self s))
                  (CrewAI._messages (self s)
                   ++ [Turn "user" query; Turn "assistant" response]))
               (stdout s ++ ["You: "; "Assistant: " +:+ response]))).
Proof.
  intros Hquit. split.
  - intros b s.
    destruct b; [left; reflexivity | right ..];
      cbn [main_loop]; unfold bind, print, is_exit, exit_words;
      cbn [existsb]; rewrite Hquit; reflexivity.
  - intros s response Hkick. destruct s as [[nm h] out]. cbn in Hkick.
    cbn [main_loop adapter_of a_chat a_state].
    unfold is_exit, exit_words. cbn [existsb]. rewrite Hquit.
    unfold CrewAI.chat. py_unfold. cbn. rewrite Hkick. cbn.
    rewrite <- app_assoc. reflexivity.
Qed.

Lemma X26_witness :
  main sample_providers Smolagents ["Quit"; "Hi"]
  = (Returns ["Hi"], RunState SmolAgents.init ["You: "])
  /\ fst (main sample_providers Crewai ["Quit"; "exit"]) = Returns [].
Proof.
  split; [| reflexivity].
  destruct (proj1 (X26_quit_ends_every_loop_but_crewai sample_providers
                     "Quit" ["Hi"] eq_refl)
              Smolagents (RunState SmolAgents.init []))
    as [Hb | Hloop]; [discriminate Hb | exact Hloop].
Defined.

(** ** More on the Google ADK adapter *)



(** X28. [clear_chat] of the Google ADK adapter abandons the session, it
    does not delete it: from any state the object has reached it returns
    [True], the new session id is one never used before, the new session
    is empty, and every session created earlier is still in the store
    with its events. *)
Theorem X28_google_adk_clear_keeps_old_sessions
  (P : providers) (s : run_state (a_state (adapter_of P GoogleAdk))) :
  reachable (adapter_of P GoogleAdk) s ->
  exists s',
    GoogleADK.clear_chat s = (Returns true, s')
    /\ GoogleADK.sessions (self s) !! GoogleADK._session_id (self s') = None
    /\ GoogleADK.sessions (self s') !! GoogleADK._session_id (self s')
       = Some []
    /\ forall i events,
         GoogleADK.sessions (self s) !! i = Some events ->
         GoogleADK.sessions (self s') !! i = Some events.
Proof.
  intros Hreach.
  pose proof (reachable_well_formed P GoogleAdk s Hreach) as W.
  cbn [well_formed adapter_of a_state] in W.
  destruct s as [[nm uid sid sess draws] out]. cbn in W.
  destruct W as [Hlt Hnone].
  unfold GoogleADK.clear_chat, GoogleADK.uuid4, GoogleADK.create_session.
  py_unfold. cbn. rewrite (Hnone draws) by lia. cbn.
  eexists. split; [reflexivity |]. cbn.
  split; [apply Hnone; lia |].
  split; [apply lookup_insert_eq |].
  intros i events Hi. rewrite lookup_insert_ne; [exact Hi |].
  intros Heq. rewrite <- Heq, (Hnone draws) in Hi by lia. discriminate.
Qed.

Lemma X28_witness :
  exists s',
    GoogleADK.clear_chat
      (snd (a_chat (adapter_of sample_providers GoogleAdk) "hi"
              (RunState (a_init (adapter_of sample_providers GoogleAdk)) [])))
    = (Returns true, s')
    /\ GoogleADK.sessions (self s') !! 0%nat = Some ["hi"].
Proof.
  destruct (X28_google_adk_clear_keeps_old_sessions sample_providers _
              (reach_chat _ _ "hi" (reach_init _ [])))
    as (s' & Hclear & _ & _ & Hkept).
  exists s'. split; [exact Hclear |].
  apply Hkept. reflexivity.
Defined.

(** ** What discovery prints *)

Lemma prefix_append (p x : string) : String.prefix p (p +:+ x) = true.
Proof.
  induction p as [| c p IH];
    [rewrite append_empty; destruct x; reflexivity |].
  rewrite append_cons. cbn [String.prefix].
  destruct (ascii_dec c c) as [_ | Hne]; [exact IH | contradiction].
Qed.

Lemma load_candidates_prints
  (import_module : string -> outcome AgentUI.py_module) {Self : Type}
  (files : list string) :
  forall (agents : list (string * string)) (s : run_state Self),
  exists lines,
    stdout (snd (AgentUI.load_candidates import_module files agents s))
    = stdout s ++ lines
    /\ List.length lines
       = List.length
           (List.filter
              (fun file => AgentUI.endswith file "_agent.py"
                           && negb (discovered import_module file))
              files)
    /\ Forall (fun line => String.prefix "Error loading " line = true) lines.
Proof.
  induction files as [| file rest IH]; intros agents s.
  - exists []. cbn. rewrite app_nil_r. auto.
  - cbn [AgentUI.load_candidates List.filter]. unfold bind.
    assert (Hstep : exists lines,
      AgentUI.load_candidate import_module agents file s
      = (Returns (discover_step import_module agents file),
         RunState (self s) (stdout s ++ lines))
      /\ List.length lines
         = (if AgentUI.endswith file "_agent.py"
               && negb (discovered import_module file)
            then 1%nat else 0%nat)
      /\ Forall (fun line => String.prefix "Error loading " line = true) lines).
    { destruct s as [me out].
      unfold AgentUI.load_candidate, discover_step, discovered, accepted_name.
      destruct (AgentUI.endswith file "_agent.py"); cbn [andb].
      - py_unfold. cbn [self stdout].
        destruct (import_module (AgentUI.drop_last3 file)) as [module | e].
        + destruct (AgentUI._safe_get_agent_instance module) as [inst |].
          * destruct (AgentUI.i_name inst).
            -- exists []. rewrite app_nil_r. auto.
            -- eexists [_]. repeat split.
               constructor; [apply prefix_append | constructor].
          * eexists [_]. repeat split.
            constructor; [apply prefix_append | constructor].
        + eexists [_]. repeat split.
          constructor; [apply prefix_append | constructor].
      - exists []. unfold ret. rewrite app_nil_r. auto. }
    destruct Hstep as (first & -> & Hlen & Hall).
    destruct (IH (discover_step import_module agents file)
                (RunState (self s) (stdout s ++ first)))
      as (more & Hout & Hmore & Hallmore).
    exists (first ++ more). cbn [stdout] in Hout.
    split; [rewrite Hout, app_assoc; reflexivity |].
    split.
    + rewrite length_app, Hlen, Hmore.
      destruct (AgentUI.endswith file "_agent.py"
                && negb (discovered import_module file)); reflexivity.
    + apply Forall_app. auto.
Qed.

(** X29. Discovery prints one line for every candidate it drops and none
    otherwise: the number of lines added to the standard output is the
    number of files ending in [_agent.py] that are not kept, and each line
    starts with ["Error loading "]. *)
Theorem X29_discovery_prints_one_line_per_dropped_candidate {Self : Type}
  (listdir : list string)
  (import_module : string -> outcome AgentUI.py_module)
  (s : run_state Self) :
  exists lines,
    stdout (snd (AgentUI.get_available_agents listdir import_module s))
    = stdout s ++ lines
    /\ List.length lines
       = List.length
           (List.filter
              (fun file => AgentUI.endswith file "_agent.py"
                           && negb (discovered import_module file))
              listdir)
    /\ Forall (fun line => String.prefix "Error loading " line = true) lines.
Proof. apply load_candidates_prints. Qed.
